(** * AI robo-advisory backend: portfolio summary and advice pipeline

    A shallow embedding of [backend/main.py]: the portfolio summarizer
    ([_summarize_portfolio]), the rule-based advisor ([_heuristic_advice]),
    the language-model client ([_hf_complete]) and the two request handlers
    that combine them ([analyze] and [chat]).

    Modelling conventions.
    - A Python [str] is its sequence of Unicode code points ([PyStr.str]).
    - A Python number is an exact rational ([Q]): the arithmetic of the
      source is read over the rationals, so binary64 rounding error,
      overflow, infinities and NaN are outside the model.  [round(x, n)]
      is rounding to the nearest multiple of [10^-n], ties to even.
    - A Python [dict] used as a map keeps its insertion order
      ([PyDict.dict]).
    - The document store, the process environment and the HTTP endpoint
      are read through a [World]; every access is recorded in an event
      log, and exceptions are explicit outcomes. *)

From Stdlib Require Import ZArith NArith QArith Qabs Qround List Bool.
From Stdlib Require Import Lia Lqa Permutation Sorted.
From Stdlib Require Import String Ascii.
From Stdlib Require Decimal.
Import ListNotations.

Set Implicit Arguments.
Local Set Warnings "-register-all".

(* ================================================================== *)
(** * Python strings *)
(* ================================================================== *)

Module PyStr.

(** A [str] is a list of code points. *)
Definition str := list N.

Definition eq_dec : forall a b : str, {a = b} + {a <> b} := list_eq_dec N.eq_dec.

Definition eqb (a b : str) : bool := if eq_dec a b then true else false.

(** Decoding of the UTF-8 bytes of a source literal into code points. *)
Fixpoint decode (bs : list N) : str :=
  match bs with
  | [] => []
  | b0 :: r0 =>
    if (b0 <? 128)%N then b0 :: decode r0
    else
      match r0 with
      | [] => []
      | b1 :: r1 =>
        if (b0 <? 224)%N then ((b0 - 192) * 64 + (b1 - 128))%N :: decode r1
        else
          match r1 with
          | [] => []
          | b2 :: r2 =>
            if (b0 <? 240)%N
            then ((b0 - 224) * 4096 + (b1 - 128) * 64 + (b2 - 128))%N :: decode r2
            else
              match r2 with
              | [] => []
              | b3 :: r3 =>
                ((b0 - 240) * 262144 + (b1 - 128) * 4096
                 + (b2 - 128) * 64 + (b3 - 128))%N :: decode r3
              end
          end
      end
  end.

Definition lit (s : string) : str :=
  decode (map N_of_ascii (list_ascii_of_string s)).

(** [s.startswith(p)] *)
Fixpoint startswith (s p : str) {struct p} : bool :=
  match p, s with
  | [], _ => true
  | _ :: _, [] => false
  | c :: p', d :: s' => (c =? d)%N && startswith s' p'
  end.

(** [s[n:]] *)
Definition slice_from (n : nat) (s : str) : str := skipn n s.

(** [c.isspace()]: the code points Python treats as whitespace. *)
Definition isspace (c : N) : bool :=
  ((9 <=? c) && (c <=? 13) || (28 <=? c) && (c <=? 32)
   || (c =? 133) || (c =? 160) || (c =? 5760)
   || (8192 <=? c) && (c <=? 8202)
   || (c =? 8232) || (c =? 8233) || (c =? 8239) || (c =? 8287)
   || (c =? 12288))%N.

Fixpoint lstrip (s : str) : str :=
  match s with
  | [] => []
  | c :: s' => if isspace c then lstrip s' else s
  end.

Definition rstrip (s : str) : str := List.rev (lstrip (List.rev s)).

(** [s.strip()] *)
Definition strip (s : str) : str := rstrip (lstrip s).

(** [sep.join(xs)] *)
Fixpoint join (sep : str) (xs : list str) : str :=
  match xs with
  | [] => []
  | [x] => x
  | x :: rest => x ++ sep ++ join sep rest
  end.

(** [s.split(c)] for a separator of one code point. *)
Fixpoint split_on (c : N) (s : str) : list str :=
  match s with
  | [] => [[]]
  | d :: s' =>
    if (d =? c)%N then [] :: split_on c s'
    else match split_on c s' with
         | [] => [[d]]
         | piece :: rest => (d :: piece) :: rest
         end
  end.

(** [s] has no occurrence of the code point [c]. *)
Definition lacks (c : N) (s : str) : bool := forallb (fun d => negb (d =? c)%N) s.

(** Decimal digits of a natural number, as code points. *)
Fixpoint digits_of_uint (d : Decimal.uint) : str :=
  match d with
  | Decimal.Nil => []
  | Decimal.D0 d' => 48%N :: digits_of_uint d'
  | Decimal.D1 d' => 49%N :: digits_of_uint d'
  | Decimal.D2 d' => 50%N :: digits_of_uint d'
  | Decimal.D3 d' => 51%N :: digits_of_uint d'
  | Decimal.D4 d' => 52%N :: digits_of_uint d'
  | Decimal.D5 d' => 53%N :: digits_of_uint d'
  | Decimal.D6 d' => 54%N :: digits_of_uint d'
  | Decimal.D7 d' => 55%N :: digits_of_uint d'
  | Decimal.D8 d' => 56%N :: digits_of_uint d'
  | Decimal.D9 d' => 57%N :: digits_of_uint d'
  end.

Definition digits (n : N) : str := digits_of_uint (N.to_uint n).

(** Insertion of a [","] before every group of three digits, counted
    from the right.  [group3 ds k] expects [k = length ds]. *)
Fixpoint group3 (ds : str) (k : nat) : str :=
  match ds, k with
  | [], _ => []
  | d :: ds', S k' =>
    d :: (if (Nat.eqb (k' mod 3) 0 && negb (Nat.eqb k' 0))%bool
          then 44%N :: group3 ds' k'
          else group3 ds' k')
  | d :: ds', O => d :: group3 ds' O
  end.

Definition thousands (n : N) : str :=
  let ds := digits n in group3 ds (List.length ds).

End PyStr.

Abbreviation str := PyStr.str.
Abbreviation lit := PyStr.lit.

(* ================================================================== *)
(** * Python numbers *)
(* ================================================================== *)

Module PyNum.

Local Open Scope Q_scope.

(** Nearest integer, ties to the even neighbour. *)
Definition round_half_even (x : Q) : Z :=
  let fl := Qfloor x in
  match Qcompare (x - inject_Z fl) (1 # 2) with
  | Lt => fl
  | Gt => (fl + 1)%Z
  | Eq => if Z.even fl then fl else (fl + 1)%Z
  end.

Fixpoint pow10 (n : nat) : positive :=
  match n with
  | O => 1%positive
  | S n' => (10 * pow10 n')%positive
  end.

(** [round(x, ndigits)] for a non-negative [ndigits]. *)
Definition py_round (x : Q) (ndigits : nat) : Q :=
  let p := pow10 ndigits in
  Qred (round_half_even (x * inject_Z (Z.pos p)) # p).

(** Truth value of a number: zero is false. *)
Definition truthy (x : Q) : bool := negb (Qeq_bool x 0).

(** [a or b] on numbers. *)
Definition or_else (a b : Q) : Q := if truthy a then a else b.

Definition ltb (a b : Q) : bool := negb (Qle_bool b a).

(** [f"{x:,.0f}"]: nearest integer (ties to even), thousands separated by
    commas, a leading minus sign for a negative [x]. *)
Definition format_comma_0f (x : Q) : str :=
  let z := round_half_even x in
  (if Qle_bool 0 x then [] else [45%N]) ++ PyStr.thousands (Z.abs_N z).

End PyNum.

(* ================================================================== *)
(** * Python dictionaries and sorting *)
(* ================================================================== *)

Module PyDict.

Section Dict.
Variable V : Type.

(** Keys are strings; entries are kept in insertion order, one per key. *)
Definition dict := list (str * V).

Definition empty : dict := [].

(** [d.get(k)] *)
Fixpoint get (k : str) (d : dict) : option V :=
  match d with
  | [] => None
  | (k', v) :: d' => if PyStr.eqb k k' then Some v else get k d'
  end.

(** [d.get(k, default)] *)
Definition get_default (k : str) (default : V) (d : dict) : V :=
  match get k d with
  | Some v => v
  | None => default
  end.

(** [d[k] = v]: an existing key keeps its position, a new one goes last. *)
Fixpoint set (k : str) (v : V) (d : dict) : dict :=
  match d with
  | [] => [(k, v)]
  | (k', v') :: d' =>
    if PyStr.eqb k k' then (k', v) :: d' else (k', v') :: set k v d'
  end.

Definition keys (d : dict) : list str := map fst d.
Definition values (d : dict) : list V := map snd d.

(** [len(d)] *)
Definition len (d : dict) : nat := List.length d.

End Dict.

(** [{k: f(v) for k, v in d.items()}] *)
Definition map_values {V W : Type} (f : V -> W) (d : dict V) : dict W :=
  map (fun kv => (fst kv, f (snd kv))) d.

End PyDict.

Module PyList.

Section Sorting.
Variable A : Type.
Variable key : A -> Q.

(** The comparison of two elements that [sorted] makes with [key=key]. *)
Definition lt (a b : A) : bool := PyNum.ltb (key a) (key b).

(** Stable insertion: [x] goes in front of the first element that is not
    smaller than it. *)
Fixpoint insert (x : A) (l : list A) : list A :=
  match l with
  | [] => [x]
  | y :: l' => if lt y x then y :: insert x l' else x :: y :: l'
  end.

(** The stable ascending sort. *)
Fixpoint sort_stable (l : list A) : list A :=
  match l with
  | [] => []
  | x :: l' => insert x (sort_stable l')
  end.

(** [sorted(l, key=key, reverse=reverse)]: with [reverse] the list is
    reversed, sorted and reversed back, so that equal elements keep their
    relative order. *)
Definition sorted (reverse : bool) (l : list A) : list A :=
  if reverse then rev (sort_stable (rev l)) else sort_stable l.

Definition ascending (a b : A) : Prop := (key a <= key b)%Q.
Definition descending (a b : A) : Prop := (key b <= key a)%Q.

(** The elements whose key is [w]. *)
Definition with_key (w : Q) (a : A) : bool := Qeq_bool (key a) w.

End Sorting.

(** [sum(xs)] over numbers, starting from [0]. *)
Definition sum (xs : list Q) : Q := fold_left Qplus xs 0%Q.

End PyList.

(* ================================================================== *)
(** * Documents *)
(* ================================================================== *)

(** A holding of a stored portfolio.  The source reads every field with
    [dict.get], so each of them may be absent. *)
Record Holding := {
  h_symbol : option str;
  h_quantity : option Q;
  h_avg_cost : option Q;
  h_sector : option str
}.

(** A portfolio document; [chat] also builds one with [holdings] only. *)
Record PortfolioDoc := {
  p_user_id : option str;
  p_holdings : option (list Holding)
}.

(** An entry of [top_positions]. *)
Record Position := {
  symbol : option str;
  weight : Q
}.

(** The dictionary returned by [_summarize_portfolio]. *)
Record Summary := {
  estimated_value : Q;
  sector_allocation : PyDict.dict Q;
  top_positions : list Position;
  holdings_count : nat
}.

(* ================================================================== *)
(** * Portfolio summarizer *)
(* ================================================================== *)

Module Summarizer.

Local Open Scope Q_scope.

Definition OTHER : str := lit "Other".

Definition get_or_zero (o : option Q) : Q :=
  match o with Some x => x | None => 0 end.

(** [h.get("avg_cost", 0) * h.get("quantity", 0)] *)
Definition cost (h : Holding) : Q :=
  get_or_zero (h_avg_cost h) * get_or_zero (h_quantity h).

(** [h.get("sector") or "Other"] *)
Definition sector_of (h : Holding) : str :=
  match h_sector h with
  | Some (c :: s) => c :: s
  | Some [] | None => OTHER
  end.

(** [portfolio.get("holdings", [])] *)
Definition holdings_of (p : PortfolioDoc) : list Holding :=
  match p_holdings p with Some hs => hs | None => [] end.

(** [sum(... for h in holdings) or 1.0] *)
Definition total_cost (holdings : list Holding) : Q :=
  PyNum.or_else (PyList.sum (map cost holdings)) 1.

(** The loop that fills [by_sector]. *)
Definition by_sector_step (acc : PyDict.dict Q) (h : Holding) : PyDict.dict Q :=
  let sector := sector_of h in
  let value := cost h in
  PyDict.set sector (PyDict.get_default sector 0 acc + value) acc.

Definition by_sector (holdings : list Holding) : PyDict.dict Q :=
  fold_left by_sector_step holdings (PyDict.empty Q).

(** The entry built for one holding before sorting. *)
Definition position_of (total : Q) (h : Holding) : Position :=
  {| symbol := h_symbol h;
     weight := PyNum.py_round (cost h / total * 100) 2 |}.

Definition _summarize_portfolio (portfolio : PortfolioDoc) : Summary :=
  let holdings := holdings_of portfolio in
  let total := total_cost holdings in
  let sector_alloc :=
    PyDict.map_values (fun v => PyNum.py_round (v / total * 100) 2)
                      (by_sector holdings) in
  let positions :=
    firstn 5 (PyList.sorted weight true (map (position_of total) holdings)) in
  {| estimated_value := PyNum.py_round total 2;
     sector_allocation := sector_alloc;
     top_positions := positions;
     holdings_count := List.length holdings |}.

(** Vocabulary of the specification. *)

(** The sum of the cost basis of all holdings, before the [or 1.0]. *)
Definition raw_total (holdings : list Holding) : Q := PyList.sum (map cost holdings).

Definition in_sector (k : str) (h : Holding) : bool := PyStr.eqb (sector_of h) k.

(** The sector total of the specification: the sum of the cost basis of
    the holdings of the sector. *)
Definition sector_total (k : str) (holdings : list Holding) : Q :=
  PyList.sum (map cost (filter (in_sector k) holdings)).

(** The entries of weight [w]. *)
Definition same_weight (w : Q) (e : Position) : bool := PyList.with_key weight w e.

End Summarizer.

(* ================================================================== *)
(** * Heuristic advisor *)
(* ================================================================== *)

(** A user document, as far as the pipeline reads it. *)
Record UserDoc := {
  u_risk_tolerance : option str;
  u_goals : option (list str)
}.

Module Advisor.

Import Summarizer.

Definition NL : str := [10%N].

Definition CONSERVATIVE : str := lit "conservative".
Definition BALANCED : str := lit "balanced".

Definition HEADER_PREFIX : str :=
  lit "Here’s a quick, personalized checkup on your portfolio (~$".
Definition HEADER_SUFFIX : str := lit ").".
Definition DIVERSIFICATION : str := lit "Diversification:".
Definition ADD_SECTORS : str :=
  lit "- Consider adding exposure to more sectors to reduce concentration risk.".
Definition MIX_OK : str :=
  lit "- Sector mix looks reasonably diversified. Keep monitoring exposures.".
Definition TRIM_LARGEST : str :=
  lit "- Your largest position is above 25% of portfolio. Gradual trimming may reduce idiosyncratic risk.".
Definition RISK_ALIGNMENT : str := lit "Risk alignment:".
Definition RISK_CONSERVATIVE : str :=
  lit "- Favor high-quality bonds, broad-market ETFs, and larger cash buffer (6–12 months expenses).".
Definition RISK_BALANCED : str :=
  lit "- A mix of equities and bonds (e.g., 60/40) with periodic rebalancing can fit your profile.".
Definition RISK_OTHER : str :=
  lit "- Tilt toward equities/alternatives with disciplined DCA and volatility management.".
Definition NEXT_STEPS : str := lit "Next steps:".
Definition STEP_AUTOMATE : str :=
  lit "- Set an automatic monthly investment and rebalance quarterly.".
Definition STEP_GOALS : str :=
  lit "- Map each goal to a time horizon and choose suitable vehicles (401k/IRA/taxable).".

(** [user.get("risk_tolerance", "balanced")] *)
Definition risk_of (user : UserDoc) : str :=
  match u_risk_tolerance user with Some r => r | None => BALANCED end.

(** [top_positions and top_positions[0]["weight"] > 25] *)
Definition largest_above_25 (top : list Position) : bool :=
  match top with
  | [] => false
  | p :: _ => PyNum.ltb 25 (weight p)
  end.

(** The paragraph appended under ["Risk alignment:"]. *)
Definition risk_paragraph (risk : str) : str :=
  if PyStr.eqb risk CONSERVATIVE then RISK_CONSERVATIVE
  else if PyStr.eqb risk BALANCED then RISK_BALANCED
  else RISK_OTHER.

(** The three paragraphs of the risk-alignment block. *)
Definition is_risk_paragraph (line : str) : bool :=
  PyStr.eqb line RISK_CONSERVATIVE || PyStr.eqb line RISK_BALANCED
  || PyStr.eqb line RISK_OTHER.

(** The list [lines] as it stands when it is joined. *)
Definition advice_lines (user : UserDoc) (portfolio : PortfolioDoc) : list str :=
  let risk := risk_of user in
  let summary := _summarize_portfolio portfolio in
  let value := estimated_value summary in
  let sectors := sector_allocation summary in
  let top := top_positions summary in
  [HEADER_PREFIX ++ PyNum.format_comma_0f value ++ HEADER_SUFFIX;
   DIVERSIFICATION]
  ++ (if Nat.ltb (PyDict.len sectors) 4 then [ADD_SECTORS] else [MIX_OK])
  ++ (if largest_above_25 top then [TRIM_LARGEST] else [])
  ++ [RISK_ALIGNMENT]
  ++ [risk_paragraph risk]
  ++ [NEXT_STEPS; STEP_AUTOMATE; STEP_GOALS].

Definition _heuristic_advice (user : UserDoc) (portfolio : PortfolioDoc) : str :=
  PyStr.join NL (advice_lines user portfolio).

End Advisor.

(* ================================================================== *)
(** * JSON values, the world and its effects *)
(* ================================================================== *)

(** A decoded JSON value; also the dynamic values the handlers pass on. *)
Inductive json : Type :=
| JNull
| JBool (b : bool)
| JNum (q : Q)
| JStr (s : str)
| JList (l : list json)
| JObj (o : list (str * json)).

Module Json.

(** Truth value of a Python object. *)
Definition truthy (v : json) : bool :=
  match v with
  | JNull => false
  | JBool b => b
  | JNum q => PyNum.truthy q
  | JStr s => negb (Nat.eqb (List.length s) 0)
  | JList l => negb (Nat.eqb (List.length l) 0)
  | JObj o => negb (Nat.eqb (List.length o) 0)
  end.

(** [a or b] *)
Definition or_else (a b : json) : json := if truthy a then a else b.

End Json.

(** A request sent to the inference endpoint. *)
Record HttpRequest := {
  req_url : str;
  req_headers : PyDict.dict str;
  req_json : json
}.

(** What [client.post], [raise_for_status] and [r.json()] end in: the
    decoded body, or an exception (transport error, timeout, error status,
    undecodable body). *)
Inductive HttpOutcome :=
| HttpJson (data : json)
| HttpFailed.

Inductive Exn :=
| HTTPException (status_code : nat) (detail : str)
| AttributeError
| TypeError
| KeyError
| HttpError.

Inductive Outcome (A : Type) :=
| Return (a : A)
| Raise (e : Exn).

Arguments Return {A} a.
Arguments Raise {A} e.

Section Service.

(** [bson.ObjectId]: the identifier type and its constructor from a string,
    which fails on a malformed one. *)
Variable oid : Type.
Variable ObjectId : str -> option oid.

(** [str(summary)], the text an f-string puts for the summary dictionary. *)
Variable repr_summary : Summary -> str.

Inductive Event :=
| EvGetenv (name : str)
| EvFindUser (id : oid)
| EvFindPortfolio (user_id : str)
| EvHttpPost (req : HttpRequest).

Record World := {
  env : PyDict.dict str;
  user_collection : oid -> option UserDoc;
  portfolio_collection : str -> option PortfolioDoc;
  endpoint : HttpRequest -> HttpOutcome
}.

(** Computations of the service: they read the world, may raise, and
    append to the log of events. *)
Definition M (A : Type) : Type := World -> list Event -> Outcome A * list Event.

Definition ret {A} (a : A) : M A := fun _ log => (Return a, log).

Definition bind {A B} (m : M A) (k : A -> M B) : M B :=
  fun w log =>
    match m w log with
    | (Return a, log') => k a w log'
    | (Raise e, log') => (Raise e, log')
    end.

Definition raise {A} (e : Exn) : M A := fun _ log => (Raise e, log).

(** [try: body except Exception: handler] *)
Definition try_except {A} (body : M A) (handler : M A) : M A :=
  fun w log =>
    match body w log with
    | (Return a, log') => (Return a, log')
    | (Raise _, log') => handler w log'
    end.

Definition emit (e : Event) : M unit := fun _ log => (Return tt, log ++ [e]).

Definition ask : M World := fun w log => (Return w, log).

Notation "x <- m ;; k" := (bind m (fun x => k))
  (at level 61, m at next level, right associativity).
Notation "m ;;; k" := (bind m (fun _ => k))
  (at level 61, right associativity).

(** [os.getenv(name)] *)
Definition getenv (name : str) : M (option str) :=
  emit (EvGetenv name) ;;;
  w <- ask ;;
  ret (PyDict.get name (env w)).

(** [db["user"].find_one({"_id": id})] *)
Definition find_user (id : oid) : M (option UserDoc) :=
  emit (EvFindUser id) ;;;
  w <- ask ;;
  ret (user_collection w id).

(** [db["portfolio"].find_one({"user_id": user_id})] *)
Definition find_portfolio (user_id : str) : M (option PortfolioDoc) :=
  emit (EvFindPortfolio user_id) ;;;
  w <- ask ;;
  ret (portfolio_collection w user_id).

(** [client.post(...)], [r.raise_for_status()], [r.json()] *)
Definition post_json (req : HttpRequest) : M json :=
  emit (EvHttpPost req) ;;;
  w <- ask ;;
  match endpoint w req with
  | HttpJson data => ret data
  | HttpFailed => raise HttpError
  end.

(* ------------------------------------------------------------------ *)
(** ** Language-model client *)
(* ------------------------------------------------------------------ *)

Definition HF_API_TOKEN : str := lit "HF_API_TOKEN".
Definition HF_CHAT_MODEL : str := lit "HF_CHAT_MODEL".
Definition DEFAULT_MODEL : str := lit "meta-llama/Llama-3.2-1B-Instruct".
Definition MODELS_URL : str := lit "https://api-inference.huggingface.co/models/".
Definition GENERATED_TEXT : str := lit "generated_text".
Definition EMPTY : json := JStr [].

(** [sub in s] on strings. *)
Fixpoint substring_in (sub s : str) : bool :=
  PyStr.startswith s sub
  || match s with
     | [] => false
     | _ :: s' => substring_in sub s'
     end.

(** ["generated_text" in v]: a key of a dictionary, a substring of a
    string, an element of a list; any other value is not a container. *)
Definition contains_generated_text (v : json) : Outcome bool :=
  match v with
  | JObj o =>
    Return (match PyDict.get GENERATED_TEXT o with Some _ => true | None => false end)
  | JStr s => Return (substring_in GENERATED_TEXT s)
  | JList l =>
    Return (existsb (fun e => match e with
                              | JStr s => PyStr.eqb s GENERATED_TEXT
                              | _ => false
                              end) l)
  | JNull | JBool _ | JNum _ => Raise TypeError
  end.

(** [v["generated_text"]] *)
Definition get_generated_text (v : json) : Outcome json :=
  match v with
  | JObj o =>
    match PyDict.get GENERATED_TEXT o with
    | Some x => Return x
    | None => Raise KeyError
    end
  | _ => Raise TypeError
  end.

Definition lift {A} (o : Outcome A) : M A := fun _ log => (o, log).

(** [full[len(prompt):].strip() if isinstance(full, str) and
    full.startswith(prompt) else full] *)
Definition strip_echo (prompt : str) (full : json) : json :=
  match full with
  | JStr f =>
    if PyStr.startswith f prompt
    then JStr (PyStr.strip (PyStr.slice_from (List.length prompt) f))
    else full
  | _ => full
  end.

(** The second test of the response, and the final [return ""]. *)
Definition single_object (data : json) : M json :=
  match data with
  | JObj o =>
    match PyDict.get GENERATED_TEXT o with
    | Some x => ret x
    | None => ret EMPTY
    end
  | _ => ret EMPTY
  end.

Definition decode_response (prompt : str) (data : json) : M json :=
  match data with
  | JList (first :: _) =>
    has <- lift (contains_generated_text first) ;;
    if has
    then full <- lift (get_generated_text first) ;;
         ret (strip_echo prompt full)
    else single_object data
  | _ => single_object data
  end.

Definition _hf_complete (prompt : str) : M json :=
  token <- getenv HF_API_TOKEN ;;
  match token with
  | None | Some [] => ret EMPTY
  | Some token =>
    m <- getenv HF_CHAT_MODEL ;;
    let model := match m with Some x => x | None => DEFAULT_MODEL end in
    let url := MODELS_URL ++ model in
    let headers := [(lit "Authorization", lit "Bearer " ++ token)] in
    let payload :=
      JObj [(lit "inputs", JStr prompt);
            (lit "parameters",
             JObj [(lit "max_new_tokens", JNum 250);
                   (lit "temperature", JNum (7 # 10))])] in
    try_except
      (data <- post_json {| req_url := url; req_headers := headers;
                            req_json := payload |} ;;
       decode_response prompt data)
      (ret EMPTY)
  end.

(* ------------------------------------------------------------------ *)
(** ** Request handlers *)
(* ------------------------------------------------------------------ *)

Definition COMMA_SPACE : str := lit ", ".

(** [str(user_doc.get("risk_tolerance"))] inside an f-string. *)
Definition str_of_risk (user : UserDoc) : str :=
  match u_risk_tolerance user with Some r => r | None => lit "None" end.

(** [", ".join(user_doc.get("goals", []))] *)
Definition goals_text (user : UserDoc) : str :=
  PyStr.join COMMA_SPACE (match u_goals user with Some g => g | None => [] end).

Record AnalyzeResponse := {
  resp_summary : Summary;
  resp_advice : json
}.

Definition analyze_prompt (user : UserDoc) (summary : Summary) : str :=
  lit "You are a helpful, compliant financial robo-advisor. "
  ++ lit "Speak clearly and concisely. Avoid guaranteeing returns. "
  ++ Advisor.NL ++ Advisor.NL
  ++ lit "User risk tolerance: " ++ str_of_risk user ++ Advisor.NL
  ++ lit "Goals: " ++ goals_text user ++ Advisor.NL
  ++ lit "Portfolio summary: " ++ repr_summary summary ++ Advisor.NL ++ Advisor.NL
  ++ lit "Provide a brief recommendation in 5-7 bullet points.".

(** [POST /advice/analyze]; the body is a JSON object. *)
Definition analyze (payload : PyDict.dict json) : M AnalyzeResponse :=
  let user_id := match PyDict.get (lit "user_id") payload with
                 | Some v => v
                 | None => JNull
                 end in
  if negb (Json.truthy user_id)
  then raise (HTTPException 400 (lit "user_id is required"))
  else
    match user_id with
    | JStr uid =>
      match ObjectId uid with
      | None => raise (HTTPException 400 (lit "invalid user_id"))
      | Some obj_id =>
        user_doc <- find_user obj_id ;;
        match user_doc with
        | None => raise (HTTPException 404 (lit "user not found"))
        | Some user_doc =>
          portfolio_doc <- find_portfolio uid ;;
          match portfolio_doc with
          | None => raise (HTTPException 404 (lit "portfolio not found"))
          | Some portfolio_doc =>
            let summary := Summarizer._summarize_portfolio portfolio_doc in
            let heuristic := Advisor._heuristic_advice user_doc portfolio_doc in
            ai_text <- _hf_complete (analyze_prompt user_doc summary) ;;
            let advice_text := Json.or_else ai_text (JStr heuristic) in
            ret {| resp_summary := summary; resp_advice := advice_text |}
          end
        end
      end
    | _ => raise (HTTPException 400 (lit "invalid user_id"))
    end.

(** The body of [POST /chat]. *)
Record ChatMessage := {
  msg_user_id : str;
  msg_message : str;
  msg_history : option (list json)
}.

Record ChatResponse := {
  reply : json
}.

Definition CHAT_SYSTEM : str :=
  lit "You are an AI robo-advisor. Use simple language, include disclaimers, "
  ++ lit "and tailor guidance to risk tolerance.".

Definition CHAT_FALLBACK : str :=
  lit "Based on your profile, focus on staying diversified, rebalancing on a set schedule, "
  ++ lit "and sizing positions according to your risk tolerance. Consider tax-advantaged accounts "
  ++ lit "for long-term goals. I’m not a financial advisor; this is educational information.".

Definition chat_prompt (user : UserDoc) (summary : Summary) (message : str) : str :=
  CHAT_SYSTEM ++ Advisor.NL ++ Advisor.NL
  ++ lit "Risk: " ++ str_of_risk user ++ Advisor.NL
  ++ lit "Goals: " ++ goals_text user ++ Advisor.NL
  ++ lit "Portfolio: " ++ repr_summary summary ++ Advisor.NL ++ Advisor.NL
  ++ lit "User: " ++ message ++ Advisor.NL ++ lit "Assistant:".

(** [{"holdings": []}] *)
Definition EMPTY_PORTFOLIO : PortfolioDoc :=
  {| p_user_id := None; p_holdings := Some [] |}.

(** [POST /chat] *)
Definition chat (msg : ChatMessage) : M ChatResponse :=
  match ObjectId (msg_user_id msg) with
  | None => raise (HTTPException 400 (lit "invalid user_id"))
  | Some obj_id =>
    user_doc <- find_user obj_id ;;
    found <- find_portfolio (msg_user_id msg) ;;
    let portfolio_doc := match found with Some p => p | None => EMPTY_PORTFOLIO end in
    let summary := Summarizer._summarize_portfolio portfolio_doc in
    match user_doc with
    | None => raise AttributeError
    | Some user_doc =>
      ai_text <- _hf_complete (chat_prompt user_doc summary (msg_message msg)) ;;
      let ai_text := if negb (Json.truthy ai_text) then JStr CHAT_FALLBACK else ai_text in
      ret {| reply := ai_text |}
    end
  end.

(** Vocabulary of the statements about the service. *)

(** The request the client sends for [prompt] with credential [token]. *)
Definition request_of (w : World) (token prompt : str) : HttpRequest :=
  {| req_url := MODELS_URL
                ++ match PyDict.get HF_CHAT_MODEL (env w) with
                   | Some x => x
                   | None => DEFAULT_MODEL
                   end;
     req_headers := [(lit "Authorization", lit "Bearer " ++ token)];
     req_json :=
       JObj [(lit "inputs", JStr prompt);
             (lit "parameters",
              JObj [(lit "max_new_tokens", JNum 250);
                    (lit "temperature", JNum (7 # 10))])] |}.

(** What the client returns for a decoded response body. *)
Definition decoded (prompt : str) (data : json) : json :=
  match data with
  | JList (JObj o :: _) =>
    match PyDict.get GENERATED_TEXT o with
    | Some full => strip_echo prompt full
    | None => EMPTY
    end
  | JObj o =>
    match PyDict.get GENERATED_TEXT o with
    | Some x => x
    | None => EMPTY
    end
  | _ => EMPTY
  end.

(** The portfolio [chat] goes on with. *)
Definition portfolio_or_empty (w : World) (user_id : str) : PortfolioDoc :=
  match portfolio_collection w user_id with
  | Some p => p
  | None => EMPTY_PORTFOLIO
  end.

(** A request runs from the empty log. *)
Definition run {A} (m : M A) (w : World) : Outcome A * list Event := m w [].

End Service.

Arguments EvGetenv {oid} name.
Arguments EvFindUser {oid} id.
Arguments EvFindPortfolio {oid} user_id.
Arguments EvHttpPost {oid} req.

(** The value [analyze] reads as [user_id]. *)
Definition user_id_of (payload : PyDict.dict json) : json :=
  match PyDict.get (lit "user_id") payload with
  | Some v => v
  | None => JNull
  end.

(** The generated text of a response of one of the two accepted shapes. *)
Definition generated_text_of (data : json) : option json :=
  match data with
  | JList (JObj o :: _) => PyDict.get GENERATED_TEXT o
  | JObj o => PyDict.get GENERATED_TEXT o
  | _ => None
  end.

(** The sectors of a list of holdings, each once, in the order of their
    first holding. *)
Definition sectors_in_order (holdings : list Holding) : list str :=
  fold_left (fun seen k => if existsb (PyStr.eqb k) seen then seen else seen ++ [k])
            (map Summarizer.sector_of holdings) [].

(** The requests posted in a log. *)
Definition is_post {oid : Type} (e : Event oid) : bool :=
  match e with
  | EvHttpPost _ => true
  | _ => false
  end.

Definition posts {oid : Type} (log : list (Event oid)) : nat :=
  List.length (filter is_post log).

(* ================================================================== *)
(** * Sample documents and worlds *)
(* ================================================================== *)

Module Scenario.

(** Identifiers are taken as the 24 hexadecimal digits they are written
    with. *)
Definition is_hex (c : N) : bool :=
  ((48 <=? c) && (c <=? 57) || (65 <=? c) && (c <=? 70)
   || (97 <=? c) && (c <=? 102))%N.

Definition hex24 (s : str) : option str :=
  if Nat.eqb (List.length s) 24 && forallb is_hex s then Some s else None.

Definition plain (summary : Summary) : str := lit "{...}".

Definition alice_id : str := lit "65f0c0ffee65f0c0ffee0001".
Definition nobody_id : str := lit "65f0c0ffee65f0c0ffee0002".

Definition alice : UserDoc :=
  {| u_risk_tolerance := Some (lit "balanced");
     u_goals := Some [lit "retirement"; lit "house"] |}.

Definition alice_portfolio : PortfolioDoc :=
  {| p_user_id := Some alice_id;
     p_holdings := Some
       [ {| h_symbol := Some (lit "AAPL"); h_quantity := Some 10;
            h_avg_cost := Some 150; h_sector := Some (lit "Tech") |};
         {| h_symbol := Some (lit "BND"); h_quantity := Some 20;
            h_avg_cost := Some 50; h_sector := Some (lit "Bonds") |} ] |}.

Definition users (id : str) : option UserDoc :=
  if PyStr.eqb id alice_id then Some alice else None.

Definition portfolios (user_id : str) : option PortfolioDoc :=
  if PyStr.eqb user_id alice_id then Some alice_portfolio else None.

(** No credential in the environment. *)
Definition offline : World str :=
  {| env := [];
     user_collection := users;
     portfolio_collection := portfolios;
     endpoint := fun _ => HttpFailed |}.

(** A credential, and an endpoint that answers every request with [data]. *)
Definition online (data : json) : World str :=
  {| env := [(HF_API_TOKEN, lit "hf_secret")];
     user_collection := users;
     portfolio_collection := portfolios;
     endpoint := fun _ => HttpJson data |}.

Definition question : ChatMessage :=
  {| msg_user_id := alice_id;
     msg_message := lit "Should I buy more bonds?";
     msg_history := None |}.

Definition stranger : ChatMessage :=
  {| msg_user_id := nobody_id;
     msg_message := lit "Hello";
     msg_history := None |}.

End Scenario.

(* ================================================================== *)
(** * Facts about numbers *)
(* ================================================================== *)

Unset Implicit Arguments.

Module NumFacts.
Import PyNum.
Local Open Scope Q_scope.

Lemma round_half_even_comp (x y : Q) :
  x == y -> round_half_even x = round_half_even y.
Proof.
  intros E. unfold round_half_even.
  rewrite (Qfloor_comp _ _ E).
  assert (C : Qcompare (x - inject_Z (Qfloor y)) (1 # 2)
              = Qcompare (y - inject_Z (Qfloor y)) (1 # 2)).
  { apply Qcompare_comp; [rewrite E|]; reflexivity. }
  rewrite C. reflexivity.
Qed.

Lemma round_half_even_near (x : Q) :
  Qabs (inject_Z (round_half_even x) - x) <= 1 # 2.
Proof.
  unfold round_half_even.
  pose proof (Qfloor_le x) as Hlo.
  pose proof (Qlt_floor x) as Hhi.
  rewrite inject_Z_plus in Hhi. change (inject_Z 1) with 1 in Hhi.
  apply Qabs_Qle_condition.
  destruct (Qcompare_spec (x - inject_Z (Qfloor x)) (1 # 2)) as [E | L | G].
  - destruct (Z.even (Qfloor x));
      [| rewrite inject_Z_plus; change (inject_Z 1) with 1]; split; lra.
  - split; lra.
  - rewrite inject_Z_plus. change (inject_Z 1) with 1. split; lra.
Qed.

Lemma py_round_comp (x y : Q) (n : nat) : x == y -> py_round x n = py_round y n.
Proof.
  intros E. unfold py_round.
  assert (R : round_half_even (x * inject_Z (Z.pos (pow10 n)))
              = round_half_even (y * inject_Z (Z.pos (pow10 n)))).
  { apply round_half_even_comp. rewrite E. reflexivity. }
  rewrite R. reflexivity.
Qed.

Lemma py_round_2_near (x : Q) : Qabs (py_round x 2 - x) <= 1 # 200.
Proof.
  unfold py_round. rewrite Qred_correct.
  change (pow10 2) with 100%positive.
  pose proof (round_half_even_near (x * inject_Z 100)) as H.
  apply Qabs_Qle_condition in H. apply Qabs_Qle_condition.
  set (z := round_half_even (x * inject_Z 100)) in *.
  assert (Hz : z # 100 == inject_Z z * (1 # 100)).
  { unfold Qeq, Qmult, inject_Z. simpl. lia. }
  rewrite Hz. change (inject_Z 100) with 100 in H.
  clearbody z. destruct H. split; lra.
Qed.

End NumFacts.

(* ================================================================== *)
(** * Facts about lists and dictionaries *)
(* ================================================================== *)

Module ListFacts.
Local Open Scope Q_scope.

Lemma fold_left_Qplus_acc (xs : list Q) (a : Q) :
  fold_left Qplus xs a == a + fold_left Qplus xs 0.
Proof.
  revert a. induction xs as [| x xs IH]; intros a; simpl.
  - lra.
  - rewrite (IH (a + x)), (IH (0 + x)). lra.
Qed.

Lemma sum_nil : PyList.sum [] = 0.
Proof. reflexivity. Qed.

Lemma sum_cons (x : Q) (xs : list Q) : PyList.sum (x :: xs) == x + PyList.sum xs.
Proof.
  unfold PyList.sum. simpl. rewrite fold_left_Qplus_acc. lra.
Qed.

Lemma sum_app (xs ys : list Q) :
  PyList.sum (xs ++ ys) == PyList.sum xs + PyList.sum ys.
Proof.
  induction xs as [| x xs IH]; simpl.
  - rewrite sum_nil. lra.
  - rewrite !sum_cons, IH. lra.
Qed.

End ListFacts.

Module DictFacts.
Import PyDict.
Local Open Scope Q_scope.

Lemma eqb_refl (k : str) : PyStr.eqb k k = true.
Proof. unfold PyStr.eqb. destruct (PyStr.eq_dec k k); congruence. Qed.

Lemma eqb_eq (a b : str) : PyStr.eqb a b = true <-> a = b.
Proof. unfold PyStr.eqb. destruct (PyStr.eq_dec a b); split; congruence. Qed.

Lemma eqb_neq (a b : str) : PyStr.eqb a b = false <-> a <> b.
Proof. unfold PyStr.eqb. destruct (PyStr.eq_dec a b); split; congruence. Qed.

Lemma get_set_same {V} (k : str) (v : V) (d : dict V) : get k (set k v d) = Some v.
Proof.
  induction d as [| [k' v'] d IH]; simpl.
  - now rewrite eqb_refl.
  - destruct (PyStr.eqb k k') eqn:E; simpl; rewrite E; auto.
Qed.

Lemma get_set_other {V} (k k' : str) (v : V) (d : dict V) :
  k <> k' -> get k' (set k v d) = get k' d.
Proof.
  intros N. induction d as [| [k0 v0] d IH]; simpl.
  - apply eqb_neq in N. destruct (PyStr.eqb k' k) eqn:E; auto.
    apply eqb_eq in E. apply eqb_neq in N. congruence.
  - destruct (PyStr.eqb k k0) eqn:E; simpl.
    + apply eqb_eq in E. subst k0.
      destruct (PyStr.eqb k' k) eqn:E'; auto.
      apply eqb_eq in E'. congruence.
    + now rewrite IH.
Qed.

Lemma get_map_values {V W} (f : V -> W) (k : str) (d : dict V) :
  get k (map_values f d) = option_map f (get k d).
Proof.
  induction d as [| [k' v'] d IH]; simpl; auto.
  destruct (PyStr.eqb k k'); auto.
Qed.

Lemma len_map_values {V W} (f : V -> W) (d : dict V) :
  len (map_values f d) = len d.
Proof. apply length_map. Qed.

Lemma in_keys_set {V} (k x : str) (v : V) (d : dict V) :
  In x (keys (set k v d)) <-> x = k \/ In x (keys d).
Proof.
  induction d as [| [k' v'] d IH]; simpl.
  - intuition congruence.
  - destruct (PyStr.eqb k k') eqn:E; simpl.
    + apply eqb_eq in E. subst k'. intuition congruence.
    + rewrite IH. intuition congruence.
Qed.

(** An assignment keeps the keys distinct. *)
Lemma set_keys_nodup {V} (k : str) (v : V) (d : dict V) :
  NoDup (keys d) -> NoDup (keys (set k v d)).
Proof.
  induction d as [| [k' v'] d IH]; simpl; intros H.
  - repeat constructor. intros [].
  - inversion H as [| ? ? Hn Hd]; subst.
    destruct (PyStr.eqb k k') eqn:E; simpl.
    + now constructor.
    + constructor; [| now apply IH].
      rewrite in_keys_set. intros [X | X]; [| contradiction].
      apply eqb_neq in E. congruence.
Qed.

Lemma keys_map_values {V W} (f : V -> W) (d : dict V) :
  keys (map_values f d) = keys d.
Proof.
  unfold keys, map_values. rewrite map_map. reflexivity.
Qed.

(** Adding [x] to the entry of [k] (taken as [0] when absent) adds [x] to
    the sum of the values. *)
Lemma sum_values_accumulate (k : str) (x : Q) (d : dict Q) :
  PyList.sum (values (set k (get_default k 0 d + x) d))
  == PyList.sum (values d) + x.
Proof.
  unfold get_default.
  induction d as [| [k' v'] d IH]; simpl.
  - rewrite ListFacts.sum_cons, ListFacts.sum_nil. lra.
  - destruct (PyStr.eqb k k') eqn:E; simpl.
    + rewrite !ListFacts.sum_cons. lra.
    + unfold values in *. rewrite !ListFacts.sum_cons, IH. lra.
Qed.

End DictFacts.

(* ================================================================== *)
(** * Facts about the summarizer loop *)
(* ================================================================== *)

Module SummarizerFacts.
Import Summarizer.
Local Open Scope Q_scope.

Lemma total_cost_nonzero (hs : list Holding) :
  ~ raw_total hs == 0 -> total_cost hs = raw_total hs.
Proof.
  intros N. unfold total_cost, PyNum.or_else, PyNum.truthy, raw_total in *.
  destruct (Qeq_bool (PyList.sum (map cost hs)) 0) eqn:E; auto.
  apply Qeq_bool_iff in E. contradiction.
Qed.

Lemma total_cost_zero (hs : list Holding) :
  raw_total hs == 0 -> total_cost hs = 1.
Proof.
  intros Z. unfold total_cost, PyNum.or_else, PyNum.truthy, raw_total in *.
  apply Qeq_bool_iff in Z. now rewrite Z.
Qed.

(** The loop over the holdings, from any accumulator: the entry of [k]
    grows by the costs of the holdings of [k], added from left to right. *)
Lemma by_sector_loop (k : str) (hs : list Holding) (acc : PyDict.dict Q) :
  PyDict.get k (fold_left by_sector_step hs acc) =
  match filter (in_sector k) hs, PyDict.get k acc with
  | [], o => o
  | l, o => Some (fold_left Qplus (map cost l)
                            (match o with Some a => a | None => 0 end))
  end.
Proof.
  revert acc. induction hs as [| h hs IH]; intros acc; simpl.
  - reflexivity.
  - rewrite IH. unfold by_sector_step.
    destruct (in_sector k h) eqn:E; unfold in_sector in E.
    + apply DictFacts.eqb_eq in E. rewrite E.
      rewrite DictFacts.get_set_same. unfold PyDict.get_default.
      destruct (filter (in_sector k) hs), (PyDict.get k acc); reflexivity.
    + apply DictFacts.eqb_neq in E.
      rewrite DictFacts.get_set_other by exact E. reflexivity.
Qed.

Lemma by_sector_get (k : str) (hs : list Holding) :
  PyDict.get k (by_sector hs) =
  if existsb (in_sector k) hs then Some (sector_total k hs) else None.
Proof.
  unfold by_sector. rewrite by_sector_loop. simpl.
  unfold sector_total, PyList.sum.
  assert (X : existsb (in_sector k) hs
              = match filter (in_sector k) hs with [] => false | _ => true end).
  { induction hs as [| h hs IH]; simpl; auto.
    destruct (in_sector k h); simpl; auto. }
  rewrite X. destruct (filter (in_sector k) hs); reflexivity.
Qed.

Lemma by_sector_keys_nodup (hs : list Holding) :
  NoDup (PyDict.keys (by_sector hs)).
Proof.
  unfold by_sector.
  assert (G : forall acc, NoDup (PyDict.keys acc) ->
                          NoDup (PyDict.keys (fold_left by_sector_step hs acc))).
  { induction hs as [| h hs IH]; intros acc H; simpl; auto.
    apply IH. unfold by_sector_step. now apply DictFacts.set_keys_nodup. }
  apply G. constructor.
Qed.

Lemma by_sector_sum_loop (hs : list Holding) (acc : PyDict.dict Q) :
  PyList.sum (PyDict.values (fold_left by_sector_step hs acc))
  == PyList.sum (PyDict.values acc) + raw_total hs.
Proof.
  revert acc. induction hs as [| h hs IH]; intros acc; simpl.
  - unfold raw_total. simpl. rewrite ListFacts.sum_nil. lra.
  - rewrite IH. unfold by_sector_step. rewrite DictFacts.sum_values_accumulate.
    unfold raw_total. simpl. rewrite ListFacts.sum_cons. lra.
Qed.

Lemma by_sector_sum (hs : list Holding) :
  PyList.sum (PyDict.values (by_sector hs)) == raw_total hs.
Proof.
  unfold by_sector. rewrite by_sector_sum_loop.
  unfold PyDict.empty. simpl. rewrite ListFacts.sum_nil. lra.
Qed.

(** Rounding every term to two decimals moves a sum by at most 0.005 per
    term. *)
Lemma sum_rounded_near (f : Q -> Q) (vs : list Q) :
  Qabs (PyList.sum (map (fun v => PyNum.py_round (f v) 2) vs)
        - PyList.sum (map f vs))
  <= (1 # 200) * inject_Z (Z.of_nat (List.length vs)).
Proof.
  induction vs as [| v vs IH].
  - cbn. discriminate.
  - cbn [map List.length]. rewrite !ListFacts.sum_cons.
    rewrite Nat2Z.inj_succ, <- Z.add_1_r, inject_Z_plus.
    change (inject_Z 1) with 1.
    pose proof (NumFacts.py_round_2_near (f v)) as Hv.
    apply Qabs_Qle_condition in Hv. apply Qabs_Qle_condition in IH.
    apply Qabs_Qle_condition.
    destruct Hv, IH. split; lra.
Qed.

Lemma sum_scaled (c : Q) (vs : list Q) :
  PyList.sum (map (fun v => v / c * 100) vs) == PyList.sum vs / c * 100.
Proof.
  induction vs as [| v vs IH]; simpl.
  - reflexivity.
  - rewrite !ListFacts.sum_cons, IH. unfold Qdiv. ring.
Qed.

Lemma values_map_values {V W} (f : V -> W) (d : PyDict.dict V) :
  PyDict.values (PyDict.map_values f d) = map f (PyDict.values d).
Proof.
  unfold PyDict.values, PyDict.map_values. rewrite !map_map. reflexivity.
Qed.

End SummarizerFacts.

(* ================================================================== *)
(** * Facts about sorting *)
(* ================================================================== *)

Module SortFacts.
Local Open Scope Q_scope.

Section ByKey.
Variable A : Type.
Variable key : A -> Q.

Local Abbreviation lt := (PyList.lt key).
Local Abbreviation ascending := (PyList.ascending key).
Local Abbreviation descending := (PyList.descending key).
Local Abbreviation with_key := (PyList.with_key key).

Lemma ltb_true (x y : Q) : PyNum.ltb x y = true <-> x < y.
Proof.
  unfold PyNum.ltb. rewrite negb_true_iff.
  split; intros H.
  - apply Qnot_le_lt. intros L. apply Qle_bool_iff in L. congruence.
  - destruct (Qle_bool y x) eqn:E; auto.
    apply Qle_bool_iff in E. lra.
Qed.

Lemma ltb_false (x y : Q) : PyNum.ltb x y = false <-> y <= x.
Proof.
  unfold PyNum.ltb. rewrite negb_false_iff. apply Qle_bool_iff.
Qed.

Lemma insert_perm (x : A) (l : list A) :
  Permutation (PyList.insert key x l) (x :: l).
Proof.
  induction l as [| y l IH]; simpl; auto.
  destruct (lt y x); auto.
  rewrite IH. apply perm_swap.
Qed.

Lemma sort_stable_perm (l : list A) : Permutation (PyList.sort_stable key l) l.
Proof.
  induction l as [| x l IH]; simpl; auto.
  rewrite insert_perm. now constructor.
Qed.

Lemma insert_sorted (x : A) (l : list A) :
  StronglySorted ascending l -> StronglySorted ascending (PyList.insert key x l).
Proof.
  induction 1 as [| y l S IH F]; simpl.
  - repeat constructor.
  - destruct (lt y x) eqn:E; unfold PyList.lt in E.
    + apply ltb_true in E. constructor; auto.
      rewrite insert_perm. constructor; auto.
      unfold PyList.ascending. lra.
    + apply ltb_false in E. constructor.
      * now constructor.
      * constructor; auto.
        eapply Forall_impl; [| exact F].
        unfold PyList.ascending. intros z Hz. lra.
Qed.

Lemma sort_stable_sorted (l : list A) :
  StronglySorted ascending (PyList.sort_stable key l).
Proof.
  induction l as [| x l IH]; simpl.
  - constructor.
  - now apply insert_sorted.
Qed.

Lemma insert_filter (w : Q) (x : A) (l : list A) :
  filter (with_key w) (PyList.insert key x l) = filter (with_key w) (x :: l).
Proof.
  induction l as [| y l IH]; auto.
  cbn [PyList.insert]. destruct (lt y x) eqn:E; auto.
  cbn [filter] in *. rewrite IH.
  destruct (with_key w x) eqn:Ex, (with_key w y) eqn:Ey; auto.
  exfalso. unfold PyList.with_key in *. apply Qeq_bool_iff in Ex, Ey.
  apply ltb_true in E. lra.
Qed.

(** The sort is stable: elements of equal key keep their order. *)
Lemma sort_stable_filter (w : Q) (l : list A) :
  filter (with_key w) (PyList.sort_stable key l) = filter (with_key w) l.
Proof.
  induction l as [| x l IH]; auto.
  cbn [PyList.sort_stable]. rewrite insert_filter. cbn [filter]. now rewrite IH.
Qed.

Lemma filter_rev (f : A -> bool) (l : list A) :
  filter f (rev l) = rev (filter f l).
Proof.
  induction l as [| x l IH]; auto.
  simpl. rewrite filter_app, IH. simpl.
  destruct (f x); simpl; auto using app_nil_r.
Qed.

Lemma StronglySorted_app (R : A -> A -> Prop) (l1 l2 : list A) :
  StronglySorted R l1 -> StronglySorted R l2 ->
  (forall a b, In a l1 -> In b l2 -> R a b) ->
  StronglySorted R (l1 ++ l2).
Proof.
  induction 1 as [| x l1 S IH F]; intros S2 H; simpl; auto.
  constructor.
  - apply IH; auto. intros a b Ha Hb. apply H; simpl; auto.
  - apply Forall_app. split; auto.
    apply Forall_forall. intros b Hb. apply H; simpl; auto.
Qed.

Lemma StronglySorted_rev (l : list A) :
  StronglySorted ascending l -> StronglySorted descending (rev l).
Proof.
  induction 1 as [| x l S IH F]; simpl.
  - constructor.
  - apply StronglySorted_app; auto.
    + repeat constructor.
    + intros a b Ha [Hb | []]. subst b.
      apply in_rev in Ha. rewrite Forall_forall in F. apply (F a Ha).
Qed.

Lemma StronglySorted_firstn (R : A -> A -> Prop) (n : nat) (l : list A) :
  StronglySorted R l -> StronglySorted R (firstn n l).
Proof.
  intros S. revert n. induction S as [| x l S IH F]; intros [| n]; simpl;
    try constructor; auto.
  apply Forall_forall. intros y Hy.
  rewrite Forall_forall in F. apply F.
  rewrite <- (firstn_skipn n l). apply in_or_app. now left.
Qed.

Lemma filter_firstn_prefix (f : A -> bool) (n : nat) (l : list A) :
  exists rest, filter f l = filter f (firstn n l) ++ rest.
Proof.
  exists (filter f (skipn n l)).
  rewrite <- filter_app, firstn_skipn. reflexivity.
Qed.

(** [sorted(l, key=key, reverse=True)] *)
Lemma sorted_reverse_perm (l : list A) :
  Permutation (PyList.sorted key true l) l.
Proof.
  unfold PyList.sorted.
  rewrite <- Permutation_rev, sort_stable_perm, <- Permutation_rev. reflexivity.
Qed.

Lemma sorted_reverse_descending (l : list A) :
  StronglySorted descending (PyList.sorted key true l).
Proof.
  unfold PyList.sorted. apply StronglySorted_rev, sort_stable_sorted.
Qed.

Lemma sorted_reverse_stable (w : Q) (l : list A) :
  filter (with_key w) (PyList.sorted key true l) = filter (with_key w) l.
Proof.
  unfold PyList.sorted.
  rewrite filter_rev, sort_stable_filter, filter_rev, rev_involutive. reflexivity.
Qed.

End ByKey.
End SortFacts.

(* ================================================================== *)
(** * The portfolio summarizer *)
(* ================================================================== *)

Section SummarizerClaims.
Import Summarizer.
Local Open Scope Q_scope.

Lemma positive_total_cost (hs : list Holding) :
  0 < raw_total hs -> total_cost hs = raw_total hs.
Proof.
  intros H. apply SummarizerFacts.total_cost_nonzero. intros E. lra.
Qed.






(** C8. For the empty holdings list the summary has [holdings_count = 0],
    an empty [sector_allocation] and an empty [top_positions]. *)
Theorem summarize_empty_holdings (p : PortfolioDoc) :
  holdings_of p = [] ->
  holdings_count (_summarize_portfolio p) = 0%nat
  /\ sector_allocation (_summarize_portfolio p) = PyDict.empty Q
  /\ top_positions (_summarize_portfolio p) = [].
Proof.
  intros E. unfold _summarize_portfolio. rewrite E. repeat split.
Qed.

Lemma summarize_empty_holdings_witness :
  let p := {| p_user_id := Some (lit "u1"); p_holdings := Some [] |} in
  holdings_of p = []
  /\ holdings_count (_summarize_portfolio p) = 0%nat
  /\ sector_allocation (_summarize_portfolio p) = PyDict.empty Q
  /\ top_positions (_summarize_portfolio p) = [].
Proof.
  intros p. split; [reflexivity |].
  apply (summarize_empty_holdings p). reflexivity.
Defined.

Lemma zero_avg_cost_total (hs : list Holding) :
  Forall (fun h => get_or_zero (h_avg_cost h) == 0) hs -> raw_total hs == 0.
Proof.
  unfold raw_total. induction 1 as [| h hs Hh _ IH]; simpl.
  - reflexivity.
  - rewrite ListFacts.sum_cons, IH. unfold cost. rewrite Hh. ring.
Qed.

(** C10. For every holdings list whose total cost is zero, among them the
    empty list and the lists whose holdings all have a zero [avg_cost], the
    summary reports [estimated_value = 1.0], not 0. *)
Theorem zero_total_estimated_value_one (p : PortfolioDoc) :
  (holdings_of p = [] -> raw_total (holdings_of p) == 0)
  /\ (Forall (fun h => get_or_zero (h_avg_cost h) == 0) (holdings_of p) ->
      raw_total (holdings_of p) == 0)
  /\ (raw_total (holdings_of p) == 0 ->
      estimated_value (_summarize_portfolio p) = 1
      /\ ~ estimated_value (_summarize_portfolio p) == 0).
Proof.
  split; [| split].
  - intros E. rewrite E. reflexivity.
  - apply zero_avg_cost_total.
  - intros Z. unfold _summarize_portfolio. cbn [estimated_value].
    rewrite (SummarizerFacts.total_cost_zero _ Z).
    split; [reflexivity | discriminate].
Qed.

Lemma zero_total_estimated_value_one_witness :
  let p := {| p_user_id := None;
              p_holdings := Some
                [ {| h_symbol := Some (lit "GIFT"); h_quantity := Some 12;
                     h_avg_cost := Some 0; h_sector := Some (lit "Tech") |};
                  {| h_symbol := Some (lit "FREE"); h_quantity := Some (7 # 2);
                     h_avg_cost := None; h_sector := None |} ] |} in
  Forall (fun h => get_or_zero (h_avg_cost h) == 0) (holdings_of p)
  /\ estimated_value (_summarize_portfolio p) = 1.
Proof.
  intros p.
  assert (F : Forall (fun h => get_or_zero (h_avg_cost h) == 0) (holdings_of p)).
  { repeat constructor. }
  split; [exact F |].
  destruct (zero_total_estimated_value_one p) as [_ [Hall Hzero]].
  exact (proj1 (Hzero (Hall F))).
Defined.

End SummarizerClaims.

(* ================================================================== *)
(** * The heuristic advisor *)
(* ================================================================== *)

Module StrFacts.

Import PyStr.

Lemma lacks_app (c : N) (s t : str) :
  lacks c (s ++ t) = lacks c s && lacks c t.
Proof. apply forallb_app. Qed.

Lemma split_on_lacks (c : N) (s : str) :
  lacks c s = true -> PyStr.split_on c s = [s].
Proof.
  induction s as [| d s IH]; simpl; auto.
  intros H. apply andb_prop in H. destruct H as [Hd Hs].
  apply negb_true_iff in Hd. rewrite Hd, (IH Hs). reflexivity.
Qed.

Lemma split_on_app (c : N) (s t : str) :
  lacks c s = true ->
  PyStr.split_on c (s ++ c :: t) = s :: PyStr.split_on c t.
Proof.
  induction s as [| d s IH]; simpl.
  - intros _. now rewrite N.eqb_refl.
  - intros H. apply andb_prop in H. destruct H as [Hd Hs].
    apply negb_true_iff in Hd. rewrite Hd, (IH Hs). reflexivity.
Qed.

(** Splitting at the separator undoes [join] on lines free of it. *)
Lemma split_on_join (c : N) (lines : list str) :
  lines <> [] ->
  forallb (lacks c) lines = true ->
  PyStr.split_on c (PyStr.join [c] lines) = lines.
Proof.
  induction lines as [| l lines IH]; [congruence |].
  intros _ H. cbn [forallb] in H. apply andb_prop in H. destruct H as [Hl Hr].
  destruct lines as [| l' lines].
  - simpl. now apply split_on_lacks.
  - change (PyStr.join [c] (l :: l' :: lines))
      with (l ++ c :: PyStr.join [c] (l' :: lines)).
    rewrite (split_on_app _ _ _ Hl), IH; auto. discriminate.
Qed.

Lemma digits_of_uint_lacks_newline (d : Decimal.uint) :
  lacks 10 (PyStr.digits_of_uint d) = true.
Proof. induction d; simpl; auto. Qed.

Lemma group3_lacks_newline (ds : str) (k : nat) :
  lacks 10 ds = true -> lacks 10 (PyStr.group3 ds k) = true.
Proof.
  revert k. induction ds as [| d ds IH]; intros k H; [reflexivity |].
  cbn [lacks forallb] in H. apply andb_prop in H. destruct H as [Hd Hs].
  destruct k as [| k]; cbn [PyStr.group3 lacks forallb]; rewrite Hd; cbn [andb].
  - apply IH, Hs.
  - destruct (Nat.eqb (k mod 3) 0 && negb (Nat.eqb k 0)).
    + change (lacks 10 (PyStr.group3 ds k) = true). apply IH, Hs.
    + apply IH, Hs.
Qed.

Lemma format_comma_0f_lacks_newline (x : Q) :
  lacks 10 (PyNum.format_comma_0f x) = true.
Proof.
  unfold PyNum.format_comma_0f, PyStr.thousands, PyStr.digits.
  rewrite lacks_app, group3_lacks_newline by apply digits_of_uint_lacks_newline.
  destruct (Qle_bool 0 x); reflexivity.
Qed.

End StrFacts.

Section AdvisorClaims.
Import Advisor.

Lemma header_is_no_risk_paragraph (t : str) :
  is_risk_paragraph (HEADER_PREFIX ++ t) = false.
Proof.
  unfold is_risk_paragraph, PyStr.eqb.
  repeat match goal with
         | |- context [PyStr.eq_dec ?a ?b] =>
           destruct (PyStr.eq_dec a b) as [E | _]; [discriminate E |]
         end.
  reflexivity.
Qed.

Lemma risk_paragraph_is_risk_paragraph (risk : str) :
  is_risk_paragraph (risk_paragraph risk) = true.
Proof.
  unfold risk_paragraph.
  destruct (PyStr.eqb risk CONSERVATIVE); [vm_compute; reflexivity |].
  destruct (PyStr.eqb risk BALANCED); vm_compute; reflexivity.
Qed.

Lemma risk_paragraph_lacks_newline (risk : str) :
  PyStr.lacks 10 (risk_paragraph risk) = true.
Proof.
  unfold risk_paragraph.
  destruct (PyStr.eqb risk CONSERVATIVE); [vm_compute; reflexivity |].
  destruct (PyStr.eqb risk BALANCED); vm_compute; reflexivity.
Qed.

(** Of the lines put together, the risk paragraph is the one appended
    under ["Risk alignment:"] and no other. *)
Lemma risk_paragraphs_of_lines (user : UserDoc) (portfolio : PortfolioDoc) :
  filter is_risk_paragraph (advice_lines user portfolio)
  = [risk_paragraph (risk_of user)].
Proof.
  unfold advice_lines.
  set (s := Summarizer._summarize_portfolio portfolio).
  rewrite !filter_app. cbn [filter].
  rewrite header_is_no_risk_paragraph, risk_paragraph_is_risk_paragraph.
  replace (is_risk_paragraph DIVERSIFICATION) with false by (vm_compute; reflexivity).
  replace (is_risk_paragraph RISK_ALIGNMENT) with false by (vm_compute; reflexivity).
  replace (is_risk_paragraph NEXT_STEPS) with false by (vm_compute; reflexivity).
  replace (is_risk_paragraph STEP_AUTOMATE) with false by (vm_compute; reflexivity).
  replace (is_risk_paragraph STEP_GOALS) with false by (vm_compute; reflexivity).
  destruct (Nat.ltb (PyDict.len (sector_allocation s)) 4);
    destruct (largest_above_25 (top_positions s)); cbn [filter];
    repeat match goal with
           | |- context [is_risk_paragraph ?c] =>
             lazymatch c with
             | risk_paragraph _ => fail
             | _ => replace (is_risk_paragraph c) with false by (vm_compute; reflexivity)
             end
           end; reflexivity.
Qed.

(** The returned text, split at its newlines, is the list of lines. *)
Lemma lines_of_heuristic_advice (user : UserDoc) (portfolio : PortfolioDoc) :
  PyStr.split_on 10 (_heuristic_advice user portfolio) = advice_lines user portfolio.
Proof.
  unfold _heuristic_advice, NL. apply StrFacts.split_on_join.
  - unfold advice_lines. discriminate.
  - unfold advice_lines.
    set (s := Summarizer._summarize_portfolio portfolio).
    rewrite !forallb_app. cbn [forallb].
    rewrite !StrFacts.lacks_app, StrFacts.format_comma_0f_lacks_newline,
      risk_paragraph_lacks_newline.
    destruct (Nat.ltb (PyDict.len (sector_allocation s)) 4);
      destruct (largest_above_25 (top_positions s)); vm_compute; reflexivity.
Qed.

(** C6. For every user and portfolio, the lines of the advisor's text hold
    exactly one risk-alignment paragraph: the bonds and cash-buffer one for
    the risk tolerance ["conservative"], the 60/40 one for ["balanced"]
    (also taken when the user has no risk tolerance), and the equities and
    alternatives one for every other value; the three paragraphs differ. *)
Theorem exactly_one_risk_paragraph (user : UserDoc) (portfolio : PortfolioDoc) :
  let paragraphs :=
    filter is_risk_paragraph
           (PyStr.split_on 10 (_heuristic_advice user portfolio)) in
  (u_risk_tolerance user = Some (lit "conservative") ->
   paragraphs = [RISK_CONSERVATIVE])
  /\ (u_risk_tolerance user = Some (lit "balanced") \/ u_risk_tolerance user = None ->
      paragraphs = [RISK_BALANCED])
  /\ (forall r, u_risk_tolerance user = Some r ->
                r <> lit "conservative" -> r <> lit "balanced" ->
                paragraphs = [RISK_OTHER])
  /\ List.length paragraphs = 1%nat
  /\ RISK_CONSERVATIVE <> RISK_BALANCED
  /\ RISK_CONSERVATIVE <> RISK_OTHER
  /\ RISK_BALANCED <> RISK_OTHER.
Proof.
  intros paragraphs. unfold paragraphs.
  rewrite lines_of_heuristic_advice, risk_paragraphs_of_lines.
  unfold risk_of, risk_paragraph.
  repeat split; try discriminate.
  - intros E. rewrite E. reflexivity.
  - intros [E | E]; rewrite E; reflexivity.
  - intros r E Nc Nb. rewrite E.
    apply DictFacts.eqb_neq in Nc, Nb.
    fold CONSERVATIVE in Nc. fold BALANCED in Nb. now rewrite Nc, Nb.
Qed.

Lemma exactly_one_risk_paragraph_witness :
  let user := {| u_risk_tolerance := Some (lit "speculative"); u_goals := None |} in
  let p := {| p_user_id := None; p_holdings := Some [] |} in
  u_risk_tolerance user = Some (lit "speculative")
  /\ filter is_risk_paragraph (PyStr.split_on 10 (_heuristic_advice user p))
     = [RISK_OTHER].
Proof.
  intros user p. split; [reflexivity |].
  destruct (exactly_one_risk_paragraph user p) as [_ [_ [H _]]].
  apply (H (lit "speculative")); [reflexivity | discriminate | discriminate].
Defined.

End AdvisorClaims.

(* ================================================================== *)
(** * The language-model client and the handlers *)
(* ================================================================== *)

Section ServiceClaims.

Variable oid : Type.
Variable ObjectId : str -> option oid.
Variable repr_summary : Summary -> str.

Implicit Types (w : World oid) (log : list (Event oid)) (prompt : str).

Lemma hf_complete_no_credential w prompt log :
  PyDict.get HF_API_TOKEN (env w) = None
  \/ PyDict.get HF_API_TOKEN (env w) = Some [] ->
  _hf_complete prompt w log = (Return EMPTY, log ++ [EvGetenv HF_API_TOKEN]).
Proof.
  intros [E | E];
    cbv beta iota delta [_hf_complete bind getenv emit ask ret];
    rewrite E; reflexivity.
Qed.

(** With a credential the client posts once; whatever goes wrong inside
    the [try] ends in the empty string. *)
Lemma hf_complete_with_credential w prompt log (c : N) (token : str) :
  PyDict.get HF_API_TOKEN (env w) = Some (c :: token) ->
  _hf_complete prompt w log =
  (Return match endpoint w (request_of w (c :: token) prompt) with
          | HttpJson data => decoded prompt data
          | HttpFailed => EMPTY
          end,
   log ++ [EvGetenv HF_API_TOKEN] ++ [EvGetenv HF_CHAT_MODEL]
       ++ [EvHttpPost (request_of w (c :: token) prompt)]).
Proof.
  intros E.
  cbv beta iota delta
      [_hf_complete bind getenv emit ask ret try_except post_json raise].
  rewrite E. cbv beta iota zeta. rewrite <- !app_assoc.
  match goal with
  | |- context [endpoint w ?r] => change r with (request_of w (c :: token) prompt)
  end.
  destruct (endpoint w (request_of w (c :: token) prompt)) as [data |];
    [| reflexivity].
  unfold decode_response, single_object, lift, bind, ret, decoded.
  destruct data as [| b | q | s | l | o]; try reflexivity.
  - destruct l as [| first rest]; [reflexivity |].
    destruct first as [| b | q | s | l' | o];
      cbv beta iota delta [contains_generated_text get_generated_text];
      try reflexivity.
    + destruct (substring_in GENERATED_TEXT s); reflexivity.
    + destruct (existsb _ l'); reflexivity.
    + destruct (PyDict.get GENERATED_TEXT o); reflexivity.
  - destruct (PyDict.get GENERATED_TEXT o); reflexivity.
Qed.

(** The client never raises. *)
Lemma hf_complete_returns w prompt log :
  exists v log', _hf_complete prompt w log = (Return v, log').
Proof.
  destruct (PyDict.get HF_API_TOKEN (env w)) as [[| c token] |] eqn:E.
  - eexists _, _. apply hf_complete_no_credential. now right.
  - eexists _, _. apply (hf_complete_with_credential _ _ _ _ _ E).
  - eexists _, _. apply hf_complete_no_credential. now left.
Qed.

(** C9. For every prompt, when the environment holds no credential (or an
    empty one), the client returns the empty string, and the only thing it
    has done is to read the credential: no request is posted. *)
Theorem hf_complete_without_credential w prompt :
  PyDict.get HF_API_TOKEN (env w) = None
  \/ PyDict.get HF_API_TOKEN (env w) = Some [] ->
  run (_hf_complete prompt) w = (Return (JStr []), [EvGetenv HF_API_TOKEN])
  /\ forall req, ~ In (EvHttpPost req) (snd (run (_hf_complete prompt) w)).
Proof.
  intros H. unfold run. rewrite (hf_complete_no_credential w prompt [] H).
  split; [reflexivity |].
  intros req [X | []]. discriminate X.
Qed.

(** [analyze] once the user and the portfolio are found. *)
Lemma analyze_found w (payload : PyDict.dict json) (uid : str) (o : oid)
      (user : UserDoc) (pf : PortfolioDoc) :
  PyDict.get (lit "user_id") payload = Some (JStr uid) ->
  uid <> [] ->
  ObjectId uid = Some o ->
  user_collection w o = Some user ->
  portfolio_collection w uid = Some pf ->
  run (analyze ObjectId repr_summary payload) w =
  match _hf_complete
          (analyze_prompt repr_summary user (Summarizer._summarize_portfolio pf))
          w [EvFindUser o; EvFindPortfolio uid] with
  | (Return ai, log') =>
    (Return {| resp_summary := Summarizer._summarize_portfolio pf;
               resp_advice :=
                 Json.or_else ai (JStr (Advisor._heuristic_advice user pf)) |},
     log')
  | (Raise e, log') => (Raise e, log')
  end.
Proof.
  intros Eid Ne Eo Eu Ep.
  cbv beta iota zeta delta [run analyze].
  rewrite Eid.
  destruct uid as [| c uid]; [congruence |].
  cbv beta iota zeta delta [Json.truthy List.length Nat.eqb negb].
  rewrite Eo.
  cbv beta iota zeta delta [bind find_user find_portfolio emit ask ret].
  rewrite Eu, Ep. cbv beta iota. cbn [app].
  destruct (_hf_complete _ w _) as [[ai | e] log']; reflexivity.
Qed.

(** [chat] once the user is found. *)
Lemma chat_found w (msg : ChatMessage) (o : oid) (user : UserDoc) :
  ObjectId (msg_user_id msg) = Some o ->
  user_collection w o = Some user ->
  run (chat ObjectId repr_summary msg) w =
  match _hf_complete
          (chat_prompt repr_summary user
             (Summarizer._summarize_portfolio
                (portfolio_or_empty w (msg_user_id msg)))
             (msg_message msg))
          w [EvFindUser o; EvFindPortfolio (msg_user_id msg)] with
  | (Return ai, log') =>
    (Return {| reply := if negb (Json.truthy ai) then JStr CHAT_FALLBACK else ai |},
     log')
  | (Raise e, log') => (Raise e, log')
  end.
Proof.
  intros Eo Eu.
  cbv beta iota zeta delta [run chat].
  rewrite Eo.
  cbv beta iota zeta delta [bind find_user find_portfolio emit ask ret].
  rewrite Eu. cbv beta iota. cbn [app].
  fold (portfolio_or_empty w (msg_user_id msg)).
  destruct (_hf_complete _ w _) as [[ai | e] log']; reflexivity.
Qed.

(** [chat] when no user has the identifier: reading the risk tolerance of
    [None] raises, after both lookups. *)
Lemma chat_user_absent w (msg : ChatMessage) (o : oid) :
  ObjectId (msg_user_id msg) = Some o ->
  user_collection w o = None ->
  run (chat ObjectId repr_summary msg) w
  = (Raise AttributeError, [EvFindUser o; EvFindPortfolio (msg_user_id msg)]).
Proof.
  intros Eo Eu.
  cbv beta iota zeta delta [run chat].
  rewrite Eo.
  cbv beta iota zeta delta [bind find_user find_portfolio emit ask ret raise].
  rewrite Eu. reflexivity.
Qed.

(** [chat] with the user found and no portfolio: it goes on with the
    empty portfolio and replies. *)
Lemma chat_portfolio_absent_proceeds w (msg : ChatMessage) (o : oid)
      (user : UserDoc) :
  ObjectId (msg_user_id msg) = Some o ->
  user_collection w o = Some user ->
  portfolio_collection w (msg_user_id msg) = None ->
  portfolio_or_empty w (msg_user_id msg) = EMPTY_PORTFOLIO
  /\ exists r log',
      run (chat ObjectId repr_summary msg) w = (Return {| reply := r |}, log')
      /\ Json.truthy r = true.
Proof.
  intros Eo Eu Ep. split.
  - unfold portfolio_or_empty. now rewrite Ep.
  - rewrite (chat_found w msg o user Eo Eu).
    destruct (hf_complete_returns w
                (chat_prompt repr_summary user
                   (Summarizer._summarize_portfolio
                      (portfolio_or_empty w (msg_user_id msg)))
                   (msg_message msg))
                [EvFindUser o; EvFindPortfolio (msg_user_id msg)])
      as [ai [log' E]].
    rewrite E. eexists _, _. split; [reflexivity |].
    destruct (Json.truthy ai) eqn:T; [exact T | reflexivity].
Qed.

(** The echo of the prompt, list shape: the text after the prompt is
    returned, stripped of surrounding whitespace. *)
Lemma hf_complete_list_strips_prompt w prompt (c : N) (token : str)
      (o : PyDict.dict json) (rest : list json) (continuation : str) :
  PyDict.get HF_API_TOKEN (env w) = Some (c :: token) ->
  endpoint w (request_of w (c :: token) prompt) = HttpJson (JList (JObj o :: rest)) ->
  PyDict.get GENERATED_TEXT o = Some (JStr (prompt ++ continuation)) ->
  fst (run (_hf_complete prompt) w) = Return (JStr (PyStr.strip continuation)).
Proof.
  intros Et Ee Eg. unfold run.
  rewrite (hf_complete_with_credential w prompt [] c token Et), Ee.
  cbn [fst decoded]. rewrite Eg. unfold strip_echo, PyStr.slice_from.
  assert (S : PyStr.startswith (prompt ++ continuation) prompt = true).
  { clear. induction prompt as [| d p IH]; [now destruct continuation |].
    cbn [app PyStr.startswith]. now rewrite N.eqb_refl, IH. }
  rewrite S, skipn_app, skipn_all, Nat.sub_diag. reflexivity.
Qed.

(** The echo of the prompt, single object: the text is returned as it
    came, prompt included. *)
Lemma hf_complete_single_object_verbatim w prompt (c : N) (token : str)
      (o : PyDict.dict json) (text : json) :
  PyDict.get HF_API_TOKEN (env w) = Some (c :: token) ->
  endpoint w (request_of w (c :: token) prompt) = HttpJson (JObj o) ->
  PyDict.get GENERATED_TEXT o = Some text ->
  fst (run (_hf_complete prompt) w) = Return text.
Proof.
  intros Et Ee Eg. unfold run.
  rewrite (hf_complete_with_credential w prompt [] c token Et), Ee.
  cbn [fst decoded]. now rewrite Eg.
Qed.

(** C3, as the code has it. Whenever the client yields no usable text:
    [analyze] (user and portfolio found) answers with the heuristic
    advisor's text for that user and portfolio; [chat] (user found) answers
    with its own fixed text. *)
Theorem empty_completion_fallback w :
  (forall (payload : PyDict.dict json) (uid : str) (o : oid)
          (user : UserDoc) (pf : PortfolioDoc) (ai : json) log',
      PyDict.get (lit "user_id") payload = Some (JStr uid) ->
      uid <> [] ->
      ObjectId uid = Some o ->
      user_collection w o = Some user ->
      portfolio_collection w uid = Some pf ->
      _hf_complete
        (analyze_prompt repr_summary user (Summarizer._summarize_portfolio pf))
        w [EvFindUser o; EvFindPortfolio uid] = (Return ai, log') ->
      Json.truthy ai = false ->
      run (analyze ObjectId repr_summary payload) w =
      (Return {| resp_summary := Summarizer._summarize_portfolio pf;
                 resp_advice := JStr (Advisor._heuristic_advice user pf) |},
       log'))
  /\ (forall (msg : ChatMessage) (o : oid) (user : UserDoc) (ai : json) log',
         ObjectId (msg_user_id msg) = Some o ->
         user_collection w o = Some user ->
         _hf_complete
           (chat_prompt repr_summary user
              (Summarizer._summarize_portfolio
                 (portfolio_or_empty w (msg_user_id msg)))
              (msg_message msg))
           w [EvFindUser o; EvFindPortfolio (msg_user_id msg)] = (Return ai, log') ->
         Json.truthy ai = false ->
         run (chat ObjectId repr_summary msg) w =
         (Return {| reply := JStr CHAT_FALLBACK |}, log')).
Proof.
  split.
  - intros payload uid o user pf ai log' Eid Ne Eo Eu Ep Eai Hai.
    rewrite (analyze_found w payload uid o user pf Eid Ne Eo Eu Ep), Eai.
    unfold Json.or_else. rewrite Hai. reflexivity.
  - intros msg o user ai log' Eo Eu Eai Hai.
    rewrite (chat_found w msg o user Eo Eu), Eai, Hai. reflexivity.
Qed.

End ServiceClaims.

(* ================================================================== *)
(** * Worked requests *)
(* ================================================================== *)

Import Scenario.

Lemma hf_complete_without_credential_witness :
  PyDict.get HF_API_TOKEN (env offline) = None
  /\ run (_hf_complete (lit "Any prompt at all")) offline
     = (Return (JStr []), [EvGetenv HF_API_TOKEN]).
Proof.
  split; [reflexivity |].
  apply (hf_complete_without_credential str offline (lit "Any prompt at all")).
  left. reflexivity.
Defined.

(** C3, as stated, fails for [chat]: without a credential the client
    yields the empty string, and the reply is the fixed text of [chat],
    which is not the heuristic advisor's text for the user and portfolio. *)
Lemma chat_fallback_is_not_heuristic_advice :
  fst (run (_hf_complete
              (chat_prompt plain alice
                 (Summarizer._summarize_portfolio alice_portfolio)
                 (msg_message question))) offline)
  = Return (JStr [])
  /\ fst (run (chat hex24 plain question) offline)
     = Return {| reply := JStr CHAT_FALLBACK |}
  /\ JStr CHAT_FALLBACK <> JStr (Advisor._heuristic_advice alice alice_portfolio).
Proof.
  split; [| split].
  - vm_compute. reflexivity.
  - vm_compute. reflexivity.
  - intros E. vm_compute in E. discriminate E.
Qed.

Lemma empty_completion_fallback_witness :
  PyDict.get (lit "user_id") [(lit "user_id", JStr alice_id)] = Some (JStr alice_id)
  /\ hex24 alice_id = Some alice_id
  /\ user_collection offline alice_id = Some alice
  /\ portfolio_collection offline alice_id = Some alice_portfolio
  /\ fst (run (analyze hex24 plain [(lit "user_id", JStr alice_id)]) offline)
     = Return {| resp_summary := Summarizer._summarize_portfolio alice_portfolio;
                 resp_advice :=
                   JStr (Advisor._heuristic_advice alice alice_portfolio) |}.
Proof.
  repeat (split; [reflexivity |]).
  destruct (empty_completion_fallback str hex24 plain offline) as [Ha _].
  rewrite (Ha [(lit "user_id", JStr alice_id)] alice_id alice_id alice
              alice_portfolio (JStr [])
              [EvFindUser alice_id; EvFindPortfolio alice_id;
               EvGetenv HF_API_TOKEN]).
  - reflexivity.
  - reflexivity.
  - discriminate.
  - reflexivity.
  - reflexivity.
  - reflexivity.
  - apply (hf_complete_no_credential str offline). left. reflexivity.
  - reflexivity.
Defined.

(** C4 at a request of an unknown user: the identifier is well formed, no
    user document has it, and [chat] ends in the [AttributeError] raised by
    [user_doc.get] on [None] instead of a reply. *)
Example chat_unknown_user_raises :
  hex24 (msg_user_id stranger) = Some nobody_id
  /\ user_collection offline nobody_id = None
  /\ portfolio_collection offline nobody_id = None
  /\ run (chat hex24 plain stranger) offline
     = (Raise AttributeError, [EvFindUser nobody_id; EvFindPortfolio nobody_id]).
Proof.
  repeat (split; [reflexivity |]).
  apply (chat_user_absent str hex24 plain offline stranger nobody_id);
    reflexivity.
Qed.

(** C5 at a response that is a single object: the generated text begins
    with the prompt and is returned with the prompt still in front; the
    same text inside a list has the prompt stripped. *)
Example hf_complete_single_object_keeps_prompt :
  PyStr.startswith (lit "Hi there") (lit "Hi") = true
  /\ fst (run (_hf_complete (lit "Hi"))
              (online (JObj [(GENERATED_TEXT, JStr (lit "Hi there"))])))
     = Return (JStr (lit "Hi there"))
  /\ fst (run (_hf_complete (lit "Hi"))
              (online (JList [JObj [(GENERATED_TEXT, JStr (lit "Hi there"))]])))
     = Return (JStr (lit "there")).
Proof.
  repeat split; vm_compute; reflexivity.
Qed.

(* ================================================================== *)
(** * Further properties of the summarizer *)
(* ================================================================== *)

Module SummarizerProperties.
Import Summarizer.
Local Open Scope Q_scope.

Lemma round_half_even_between (a b : Z) (y : Q) :
  inject_Z a <= y -> y <= inject_Z b ->
  (a <= PyNum.round_half_even y <= b)%Z.
Proof.
  intros Ha Hb. unfold PyNum.round_half_even.
  pose proof (Qfloor_le y) as Hlo.
  pose proof (Qlt_floor y) as Hhi.
  assert (Fa : (a <= Qfloor y)%Z).
  { rewrite <- (Qfloor_Z a). now apply Qfloor_resp_le. }
  assert (Fb : (Qfloor y <= b)%Z).
  { rewrite <- (Qfloor_Z b). now apply Qfloor_resp_le. }
  assert (Up : y - inject_Z (Qfloor y) == 0 \/ (Qfloor y + 1 <= b)%Z).
  { destruct (Z.eq_dec (Qfloor y) b) as [E | N]; [left | right; lia].
    rewrite E in *. lra. }
  destruct (Qcompare_spec (y - inject_Z (Qfloor y)) (1 # 2)) as [E | L | G].
  - destruct Up as [U | U]; [rewrite U in E; discriminate E |].
    destruct (Z.even (Qfloor y)); lia.
  - lia.
  - destruct Up as [U | U]; [rewrite U in G; discriminate G | lia].
Qed.

(** Rounding to two decimals keeps a value between the bounds [0] and
    [100]. *)
Lemma py_round_percent (x : Q) :
  0 <= x -> x <= 100 -> 0 <= PyNum.py_round x 2 /\ PyNum.py_round x 2 <= 100.
Proof.
  intros H0 H1. unfold PyNum.py_round. rewrite Qred_correct.
  change (PyNum.pow10 2) with 100%positive.
  destruct (round_half_even_between 0 10000 (x * inject_Z 100)) as [L U].
  - change (inject_Z 0) with 0. change (inject_Z 100) with 100. lra.
  - change (inject_Z 10000) with 10000. change (inject_Z 100) with 100. lra.
  - unfold Qle. cbn [Qnum Qden]. lia.
Qed.

Lemma sum_nonneg (xs : list Q) :
  Forall (fun x => 0 <= x) xs -> 0 <= PyList.sum xs.
Proof.
  induction 1 as [| x xs Hx _ IH].
  - rewrite ListFacts.sum_nil. lra.
  - rewrite ListFacts.sum_cons. lra.
Qed.

Lemma sum_ge_member (xs : list Q) (x : Q) :
  Forall (fun y => 0 <= y) xs -> In x xs -> x <= PyList.sum xs.
Proof.
  induction 1 as [| y xs Hy F IH]; intros I; [destruct I |].
  rewrite ListFacts.sum_cons. pose proof (sum_nonneg xs F).
  destruct I as [-> | I]; [lra | specialize (IH I); lra].
Qed.

Lemma sum_filter_le (f : Holding -> bool) (hs : list Holding) :
  Forall (fun h => 0 <= cost h) hs ->
  0 <= PyList.sum (map cost (filter f hs))
  /\ PyList.sum (map cost (filter f hs)) <= PyList.sum (map cost hs).
Proof.
  induction 1 as [| h hs Hh _ [IH0 IH1]]; cbn [filter map].
  - rewrite ListFacts.sum_nil. lra.
  - destruct (f h); cbn [map]; rewrite !ListFacts.sum_cons; lra.
Qed.

Lemma percent_of_part (c t : Q) :
  0 <= c -> c <= t -> 0 < t -> 0 <= c / t * 100 /\ c / t * 100 <= 100.
Proof.
  intros H0 H1 Ht.
  assert (I : 0 < / t) by now apply Qinv_lt_0_compat.
  unfold Qdiv. split.
  - assert (0 <= c * / t) by (apply Qmult_le_0_compat; lra). lra.
  - assert (c * / t <= t * / t).
    { apply Qmult_le_compat_r; lra. }
    assert (t * / t == 1) by (apply Qmult_inv_r; lra). lra.
Qed.

(** X9. For holdings of non-negative cost and positive total, every
    weight in [top_positions] and every value of [sector_allocation] lies
    between 0 and 100. *)
Theorem percentages_within_bounds (p : PortfolioDoc) :
  Forall (fun h => 0 <= cost h) (holdings_of p) ->
  0 < raw_total (holdings_of p) ->
  Forall (fun e => 0 <= weight e /\ weight e <= 100)
         (top_positions (_summarize_portfolio p))
  /\ (forall k a,
         PyDict.get k (sector_allocation (_summarize_portfolio p)) = Some a ->
         0 <= a /\ a <= 100).
Proof.
  intros Hc Hpos. unfold _summarize_portfolio.
  cbn [top_positions sector_allocation].
  rewrite (positive_total_cost _ Hpos).
  set (hs := holdings_of p) in *. set (t := raw_total hs) in *.
  split.
  - apply Forall_forall. intros e He.
    assert (Hin : In e (map (position_of t) hs)).
    { apply (Permutation_in _ (SortFacts.sorted_reverse_perm _ weight _)).
      rewrite <- (firstn_skipn 5 (PyList.sorted weight true _)).
      apply in_or_app. left. exact He. }
    apply in_map_iff in Hin. destruct Hin as [h [<- Hh]]. cbn [weight].
    apply py_round_percent; apply percent_of_part; try assumption.
    + rewrite Forall_forall in Hc. now apply Hc.
    + apply sum_ge_member.
      * apply Forall_map. exact Hc.
      * now apply in_map.
    + rewrite Forall_forall in Hc. now apply Hc.
    + apply sum_ge_member.
      * apply Forall_map. exact Hc.
      * now apply in_map.
  - intros k a G.
    rewrite DictFacts.get_map_values, SummarizerFacts.by_sector_get in G.
    destruct (existsb (in_sector k) hs); [| discriminate G].
    cbn [option_map] in G. injection G as <-.
    destruct (sum_filter_le (in_sector k) hs Hc) as [S0 S1].
    apply py_round_percent; apply percent_of_part; assumption.
Qed.

Lemma StronglySorted_app_inv {A} (R : A -> A -> Prop) (l1 l2 : list A) :
  StronglySorted R (l1 ++ l2) ->
  forall a b, In a l1 -> In b l2 -> R a b.
Proof.
  induction l1 as [| x l1 IH]; cbn [app]; intros S a b Ha Hb; [destruct Ha |].
  inversion S as [| ? ? S' F]; subst.
  destruct Ha as [-> | Ha].
  - rewrite Forall_forall in F. apply F. apply in_or_app. now right.
  - now apply IH.
Qed.

(** X10. [top_positions] holds the heaviest entries: the entries of the
    holdings are those of [top_positions] together with others, none of
    which weighs more than any entry of [top_positions]. *)
Theorem top_positions_are_heaviest (p : PortfolioDoc) :
  exists others,
    Permutation (top_positions (_summarize_portfolio p) ++ others)
                (map (position_of (total_cost (holdings_of p))) (holdings_of p))
    /\ forall e e',
        In e (top_positions (_summarize_portfolio p)) ->
        In e' others ->
        weight e' <= weight e.
Proof.
  unfold _summarize_portfolio. cbn [top_positions].
  set (entries := map _ (holdings_of p)).
  exists (skipn 5 (PyList.sorted weight true entries)). split.
  - rewrite firstn_skipn. apply (SortFacts.sorted_reverse_perm _ weight).
  - intros e e' He He'.
    pose proof (SortFacts.sorted_reverse_descending _ weight entries) as S.
    rewrite <- (firstn_skipn 5 (PyList.sorted weight true entries)) in S.
    exact (StronglySorted_app_inv _ _ _ S e e' He He').
Qed.

Lemma in_get {V} (k : str) (v : V) (d : PyDict.dict V) :
  NoDup (PyDict.keys d) -> In (k, v) d -> PyDict.get k d = Some v.
Proof.
  induction d as [| [k' v'] d IH]; cbn; intros N I; [destruct I |].
  inversion N as [| ? ? Hn Hd]; subst.
  destruct I as [E | I].
  - injection E as -> ->. now rewrite DictFacts.eqb_refl.
  - destruct (PyStr.eqb k k') eqn:E; [| now apply IH].
    apply DictFacts.eqb_eq in E. subst k'.
    exfalso. apply Hn. unfold PyDict.keys.
    change k with (fst (k, v)). now apply in_map.
Qed.

Lemma sum_zero (xs : list Q) :
  Forall (fun x => x == 0) xs -> PyList.sum xs == 0.
Proof.
  induction 1 as [| x xs Hx _ IH].
  - reflexivity.
  - rewrite ListFacts.sum_cons, Hx, IH. reflexivity.
Qed.

(** X11. When every holding has a zero cost (a zero or missing [avg_cost]
    or [quantity]), nothing fails and no percentage is undefined: the
    divisor is 1, every value of [sector_allocation] and every weight of
    [top_positions] is 0, and the estimated value is 1. *)
Theorem zero_cost_percentages (p : PortfolioDoc) :
  Forall (fun h => cost h == 0) (holdings_of p) ->
  total_cost (holdings_of p) = 1
  /\ Forall (fun kv => snd kv = 0) (sector_allocation (_summarize_portfolio p))
  /\ Forall (fun e => weight e = 0) (top_positions (_summarize_portfolio p))
  /\ estimated_value (_summarize_portfolio p) = 1.
Proof.
  intros Hz.
  assert (Ht : total_cost (holdings_of p) = 1).
  { apply SummarizerFacts.total_cost_zero. unfold raw_total.
    apply sum_zero. apply Forall_map. exact Hz. }
  unfold _summarize_portfolio.
  cbn [top_positions sector_allocation estimated_value]. rewrite Ht.
  set (hs := holdings_of p) in *.
  assert (R0 : forall x, x == 0 -> PyNum.py_round (x / 1 * 100) 2 = 0).
  { intros x Hx. rewrite (NumFacts.py_round_comp (x / 1 * 100) 0 2).
    - reflexivity.
    - rewrite Hx. reflexivity. }
  split; [reflexivity | split; [| split; [| reflexivity]]].
  - apply Forall_forall. intros [k a] Hin. cbn [snd].
    unfold PyDict.map_values in Hin. apply in_map_iff in Hin.
    destruct Hin as [[k' v] [E I]]. cbn [fst snd] in E. injection E as -> <-.
    apply R0.
    pose proof (in_get k v (by_sector hs)
                       (SummarizerFacts.by_sector_keys_nodup hs) I) as G.
    rewrite SummarizerFacts.by_sector_get in G.
    destruct (existsb (in_sector k) hs); [| discriminate G].
    injection G as <-. unfold sector_total. apply sum_zero.
    apply Forall_map. apply Forall_forall. intros h Hh.
    apply filter_In in Hh. rewrite Forall_forall in Hz. now apply Hz.
  - apply Forall_forall. intros e He.
    assert (Hin : In e (map (position_of 1) hs)).
    { apply (Permutation_in _ (SortFacts.sorted_reverse_perm _ weight _)).
      rewrite <- (firstn_skipn 5 (PyList.sorted weight true _)).
      apply in_or_app. left. exact He. }
    apply in_map_iff in Hin. destruct Hin as [h [<- Hh]]. cbn [weight].
    apply R0. rewrite Forall_forall in Hz. now apply Hz.
Qed.

Lemma keys_set {V} (k : str) (v : V) (d : PyDict.dict V) :
  PyDict.keys (PyDict.set k v d)
  = if existsb (PyStr.eqb k) (PyDict.keys d)
    then PyDict.keys d
    else PyDict.keys d ++ [k].
Proof.
  induction d as [| [k' v'] d IH]; cbn; [reflexivity |].
  destruct (PyStr.eqb k k') eqn:E; cbn; [reflexivity |].
  unfold PyDict.keys in IH. rewrite IH.
  destruct (existsb (PyStr.eqb k) (map fst d)); reflexivity.
Qed.

Lemma by_sector_keys_loop (hs : list Holding) (acc : PyDict.dict Q) :
  PyDict.keys (fold_left by_sector_step hs acc)
  = fold_left (fun seen k => if existsb (PyStr.eqb k) seen then seen else seen ++ [k])
              (map sector_of hs) (PyDict.keys acc).
Proof.
  revert acc. induction hs as [| h hs IH]; intros acc; cbn [fold_left map];
    [reflexivity |].
  rewrite IH. unfold by_sector_step. now rewrite keys_set.
Qed.

Lemma first_occurrences_length (l seen : list str) :
  (List.length
     (fold_left (fun seen k => if existsb (PyStr.eqb k) seen then seen else seen ++ [k])
                l seen)
   <= List.length seen + List.length l)%nat.
Proof.
  revert seen. induction l as [| k l IH]; intros seen; cbn [fold_left List.length];
    [lia |].
  destruct (existsb (PyStr.eqb k) seen).
  - specialize (IH seen). lia.
  - specialize (IH (seen ++ [k])). rewrite length_app in IH. cbn in IH. lia.
Qed.

(** X12. The keys of [sector_allocation] are the sectors of the holdings
    (a missing or empty one read as ["Other"]), each once, in the order of
    their first holding; hence there are never more sectors than holdings. *)
Theorem sector_allocation_keys (p : PortfolioDoc) :
  PyDict.keys (sector_allocation (_summarize_portfolio p))
  = sectors_in_order (holdings_of p)
  /\ (PyDict.len (sector_allocation (_summarize_portfolio p))
      <= holdings_count (_summarize_portfolio p))%nat.
Proof.
  unfold _summarize_portfolio. cbn [sector_allocation holdings_count].
  rewrite DictFacts.len_map_values.
  assert (K : PyDict.keys (by_sector (holdings_of p))
              = sectors_in_order (holdings_of p)).
  { unfold by_sector. now rewrite by_sector_keys_loop. }
  split.
  - now rewrite DictFacts.keys_map_values.
  - unfold PyDict.len.
    replace (List.length (by_sector (holdings_of p)))
      with (List.length (PyDict.keys (by_sector (holdings_of p))))
      by apply length_map.
    rewrite K. unfold sectors_in_order.
    pose proof (first_occurrences_length
                  (map sector_of (holdings_of p)) []) as H.
    rewrite length_map in H. exact H.
Qed.

End SummarizerProperties.

(* ================================================================== *)
(** * Further properties of the client and the handlers *)
(* ================================================================== *)

Section ServiceProperties.

Variable oid : Type.
Variable ObjectId : str -> option oid.
Variable repr_summary : Summary -> str.

Implicit Types (w : World oid) (log : list (Event oid)) (prompt : str).

(** The log of the client is the log it started from followed by one of
    two traces: the read of the credential, or the two reads and one post. *)
Lemma hf_complete_trace w prompt log :
  exists v,
    _hf_complete prompt w log = (Return v, log ++ [EvGetenv HF_API_TOKEN])
    \/ exists token,
        PyDict.get HF_API_TOKEN (env w) = Some token
        /\ token <> []
        /\ _hf_complete prompt w log =
           (Return v, log ++ [EvGetenv HF_API_TOKEN] ++ [EvGetenv HF_CHAT_MODEL]
                          ++ [EvHttpPost (request_of w token prompt)]).
Proof.
  destruct (PyDict.get HF_API_TOKEN (env w)) as [[| c token] |] eqn:E.
  - exists EMPTY. left. apply hf_complete_no_credential. now right.
  - eexists. right. exists (c :: token). split; [reflexivity |].
    split; [discriminate |].
    apply (hf_complete_with_credential oid w prompt log c token E).
  - exists EMPTY. left. apply hf_complete_no_credential. now left.
Qed.

Lemma posts_app log1 log2 : posts (log1 ++ log2) = (posts log1 + posts log2)%nat.
Proof. unfold posts. now rewrite filter_app, length_app. Qed.

Lemma hf_complete_posts w prompt log :
  (posts (snd (_hf_complete prompt w log)) <= posts log + 1)%nat.
Proof.
  destruct (hf_complete_trace w prompt log) as [v [E | [token [_ [_ E]]]]];
    rewrite E; cbn [snd]; rewrite !posts_app; cbn; lia.
Qed.

(** X1. The client never raises and posts at most one request: for every
    world and prompt it returns a value, having posted nothing without a
    credential and exactly one request with one. *)
Theorem hf_complete_total_single_attempt w prompt :
  exists v log',
    run (_hf_complete prompt) w = (Return v, log')
    /\ (posts log' <= 1)%nat
    /\ (posts log' = 1%nat <->
        exists c token, PyDict.get HF_API_TOKEN (env w) = Some (c :: token)).
Proof.
  unfold run.
  destruct (PyDict.get HF_API_TOKEN (env w)) as [[| c token] |] eqn:E.
  - rewrite (hf_complete_no_credential oid w prompt [] (or_intror E)).
    eexists _, _. split; [reflexivity |]. split; [cbn; lia |].
    split; [discriminate | intros [c [t X]]; discriminate X].
  - rewrite (hf_complete_with_credential oid w prompt [] c token E).
    eexists _, _. split; [reflexivity |]. split; [cbn; lia |].
    split; [intros _; eauto | reflexivity].
  - rewrite (hf_complete_no_credential oid w prompt [] (or_introl E)).
    eexists _, _. split; [reflexivity |]. split; [cbn; lia |].
    split; [discriminate | intros [c [t X]]; discriminate X].
Qed.

(** X2. With a credential, a request that fails (transport error, error
    status, undecodable body) and a response of neither accepted shape
    (a scalar, an empty list, a list whose first element is no object with
    the field, an object without it) both give the empty string. *)
Theorem hf_complete_swallows_failures w prompt (c : N) (token : str) :
  PyDict.get HF_API_TOKEN (env w) = Some (c :: token) ->
  (endpoint w (request_of w (c :: token) prompt) = HttpFailed ->
   fst (run (_hf_complete prompt) w) = Return (JStr []))
  /\ (forall data,
         endpoint w (request_of w (c :: token) prompt) = HttpJson data ->
         generated_text_of data = None ->
         fst (run (_hf_complete prompt) w) = Return (JStr [])).
Proof.
  intros Et. unfold run.
  rewrite (hf_complete_with_credential oid w prompt [] c token Et). cbn [fst].
  split.
  - intros E. now rewrite E.
  - intros data E G. rewrite E. unfold decoded.
    destruct data as [| b | q | s | l | o]; try reflexivity.
    + destruct l as [| first rest]; [reflexivity |].
      destruct first as [| b | q | s | l' | o]; try reflexivity.
      cbn [generated_text_of] in G. now rewrite G.
    + cbn [generated_text_of] in G. now rewrite G.
Qed.

Lemma startswith_prefix (s p : str) :
  PyStr.startswith s p = true <-> exists t, s = p ++ t.
Proof.
  revert s. induction p as [| c p IH]; intros s.
  - split; [intros _; now exists s | reflexivity].
  - destruct s as [| d s]; cbn [PyStr.startswith].
    + split; [discriminate | intros [t X]; discriminate X].
    + rewrite andb_true_iff, N.eqb_eq, IH. split.
      * intros [-> [t ->]]. now exists t.
      * intros [t X]. injection X as -> ->. split; [reflexivity | now exists t].
Qed.

Lemma lstrip_head (s : str) :
  match PyStr.lstrip s with
  | [] => True
  | c :: _ => PyStr.isspace c = false
  end.
Proof.
  induction s as [| c s IH]; cbn [PyStr.lstrip]; [exact I |].
  destruct (PyStr.isspace c) eqn:E; [exact IH | exact E].
Qed.

Lemma lstrip_suffix (s : str) : exists ws, s = ws ++ PyStr.lstrip s.
Proof.
  induction s as [| c s [ws IH]]; cbn [PyStr.lstrip].
  - now exists [].
  - destruct (PyStr.isspace c).
    + exists (c :: ws). cbn. now rewrite <- IH.
    + now exists [].
Qed.

(** The first and the last code point of a stripped string are no
    whitespace. *)
Lemma strip_ends (s : str) :
  match PyStr.strip s with
  | [] => True
  | c :: _ => PyStr.isspace c = false
  end
  /\ match rev (PyStr.strip s) with
     | [] => True
     | c :: _ => PyStr.isspace c = false
     end.
Proof.
  unfold PyStr.strip, PyStr.rstrip. split.
  - pose proof (lstrip_head s) as H.
    destruct (lstrip_suffix (rev (PyStr.lstrip s))) as [ws E].
    apply (f_equal (@rev N)) in E. rewrite rev_involutive, rev_app_distr in E.
    destruct (rev (PyStr.lstrip (rev (PyStr.lstrip s)))) as [| c r] eqn:R;
      [exact I |].
    rewrite E in H. exact H.
  - rewrite rev_involutive. apply lstrip_head.
Qed.

(** X3. With a credential and a response that is a list whose first
    element carries a string as generated text: a text that begins with the
    prompt is returned without the prompt and without whitespace at either
    end; any other text is returned as it came. *)
Theorem hf_complete_list_text w prompt (c : N) (token : str)
        (o : PyDict.dict json) (rest : list json) (full : str) :
  PyDict.get HF_API_TOKEN (env w) = Some (c :: token) ->
  endpoint w (request_of w (c :: token) prompt)
  = HttpJson (JList (JObj o :: rest)) ->
  PyDict.get GENERATED_TEXT o = Some (JStr full) ->
  (forall continuation, full = prompt ++ continuation ->
     exists text,
       fst (run (_hf_complete prompt) w) = Return (JStr text)
       /\ text = PyStr.strip continuation
       /\ match text with [] => True | d :: _ => PyStr.isspace d = false end
       /\ match rev text with [] => True | d :: _ => PyStr.isspace d = false end)
  /\ ((forall continuation, full <> prompt ++ continuation) ->
      fst (run (_hf_complete prompt) w) = Return (JStr full)).
Proof.
  intros Et Ee Eg. unfold run.
  rewrite (hf_complete_with_credential oid w prompt [] c token Et), Ee.
  cbn [fst decoded]. rewrite Eg. unfold strip_echo, PyStr.slice_from. split.
  - intros t ->.
    assert (S : PyStr.startswith (prompt ++ t) prompt = true)
      by (apply startswith_prefix; now exists t).
    rewrite S, skipn_app, skipn_all, Nat.sub_diag. cbn [skipn app].
    exists (PyStr.strip t). split; [reflexivity |]. split; [reflexivity |].
    apply strip_ends.
  - intros N.
    destruct (PyStr.startswith full prompt) eqn:S; [| reflexivity].
    apply startswith_prefix in S. destruct S as [t E]. now destruct (N t).
Qed.

(* ------------------------------------------------------------------ *)
(** ** [analyze] *)
(* ------------------------------------------------------------------ *)

Lemma analyze_no_user_id w (payload : PyDict.dict json) :
  Json.truthy (user_id_of payload) = false ->
  run (analyze ObjectId repr_summary payload) w
  = (Raise (HTTPException 400 (lit "user_id is required")), []).
Proof.
  intros H. cbv beta iota zeta delta [run analyze].
  fold (user_id_of payload). now rewrite H.
Qed.

Lemma analyze_not_a_string w (payload : PyDict.dict json) :
  Json.truthy (user_id_of payload) = true ->
  (forall uid, user_id_of payload <> JStr uid) ->
  run (analyze ObjectId repr_summary payload) w
  = (Raise (HTTPException 400 (lit "invalid user_id")), []).
Proof.
  intros H N. cbv beta iota zeta delta [run analyze].
  fold (user_id_of payload). rewrite H. cbv beta iota delta [negb].
  destruct (user_id_of payload) as [| b | q | s | l | o]; try reflexivity.
  now destruct (N s).
Qed.

Lemma analyze_malformed w (payload : PyDict.dict json) (uid : str) :
  user_id_of payload = JStr uid ->
  uid <> [] ->
  ObjectId uid = None ->
  run (analyze ObjectId repr_summary payload) w
  = (Raise (HTTPException 400 (lit "invalid user_id")), []).
Proof.
  intros E Ne Eo. cbv beta iota zeta delta [run analyze].
  fold (user_id_of payload). rewrite E.
  destruct uid as [| c uid]; [congruence |].
  cbv beta iota zeta delta [Json.truthy List.length Nat.eqb negb].
  now rewrite Eo.
Qed.

Lemma analyze_user_absent w (payload : PyDict.dict json) (uid : str) (o : oid) :
  user_id_of payload = JStr uid ->
  uid <> [] ->
  ObjectId uid = Some o ->
  user_collection w o = None ->
  run (analyze ObjectId repr_summary payload) w
  = (Raise (HTTPException 404 (lit "user not found")), [EvFindUser o]).
Proof.
  intros E Ne Eo Eu. cbv beta iota zeta delta [run analyze].
  fold (user_id_of payload). rewrite E.
  destruct uid as [| c uid]; [congruence |].
  cbv beta iota zeta delta [Json.truthy List.length Nat.eqb negb].
  rewrite Eo.
  cbv beta iota zeta delta [bind find_user emit ask ret raise].
  now rewrite Eu.
Qed.

Lemma analyze_portfolio_absent w (payload : PyDict.dict json) (uid : str)
      (o : oid) (user : UserDoc) :
  user_id_of payload = JStr uid ->
  uid <> [] ->
  ObjectId uid = Some o ->
  user_collection w o = Some user ->
  portfolio_collection w uid = None ->
  run (analyze ObjectId repr_summary payload) w
  = (Raise (HTTPException 404 (lit "portfolio not found")),
     [EvFindUser o; EvFindPortfolio uid]).
Proof.
  intros E Ne Eo Eu Ep. cbv beta iota zeta delta [run analyze].
  fold (user_id_of payload). rewrite E.
  destruct uid as [| c uid]; [congruence |].
  cbv beta iota zeta delta [Json.truthy List.length Nat.eqb negb].
  rewrite Eo.
  cbv beta iota zeta delta [bind find_user find_portfolio emit ask ret raise].
  now rewrite Eu, Ep.
Qed.

(** X4. [analyze] rejects a request without a usable identifier before it
    touches storage or network: an absent, null, empty or otherwise false
    [user_id] is answered with 400 "user_id is required", any other value
    that is no string the identifier constructor accepts with 400
    "invalid user_id", and the log of the request is empty. *)
Theorem analyze_rejects_before_any_access w (payload : PyDict.dict json) :
  (Json.truthy (user_id_of payload) = false ->
   run (analyze ObjectId repr_summary payload) w
   = (Raise (HTTPException 400 (lit "user_id is required")), []))
  /\ (Json.truthy (user_id_of payload) = true ->
      (forall uid o, user_id_of payload = JStr uid -> ObjectId uid <> Some o) ->
      run (analyze ObjectId repr_summary payload) w
      = (Raise (HTTPException 400 (lit "invalid user_id")), [])).
Proof.
  split.
  - apply analyze_no_user_id.
  - intros T N.
    destruct (user_id_of payload) as [| b | q | uid | l | o] eqn:E;
      try (apply analyze_not_a_string; [now rewrite E | rewrite E; discriminate]).
    apply (analyze_malformed w payload uid E).
    + intros ->. discriminate T.
    + destruct (ObjectId uid) as [o |] eqn:Eo; [| reflexivity].
      now destruct (N uid o eq_refl).
Qed.

(** X5. [analyze] with a well-formed identifier: when no user has it the
    answer is 404 "user not found" and the portfolio is not looked up; when
    the user has no portfolio the answer is 404 "portfolio not found"; in
    both cases the environment is not read and nothing is posted. *)
Theorem analyze_not_found w (payload : PyDict.dict json) (uid : str) (o : oid) :
  user_id_of payload = JStr uid ->
  uid <> [] ->
  ObjectId uid = Some o ->
  (user_collection w o = None ->
   run (analyze ObjectId repr_summary payload) w
   = (Raise (HTTPException 404 (lit "user not found")), [EvFindUser o]))
  /\ (forall user,
         user_collection w o = Some user ->
         portfolio_collection w uid = None ->
         run (analyze ObjectId repr_summary payload) w
         = (Raise (HTTPException 404 (lit "portfolio not found")),
            [EvFindUser o; EvFindPortfolio uid])).
Proof.
  intros E Ne Eo. split.
  - intros Eu. exact (analyze_user_absent w payload uid o E Ne Eo Eu).
  - intros user Eu Ep.
    exact (analyze_portfolio_absent w payload uid o user E Ne Eo Eu Ep).
Qed.

(** X6. Every run of [analyze] ends in one of three ways: a response,
    reached only with the user and the portfolio found, whose summary is the
    summary of that portfolio and during which at most one request was
    posted; a 400 with an empty log; or a 404 after at most the two lookups
    and without a post.  It raises nothing else. *)
Theorem analyze_outcomes w (payload : PyDict.dict json) :
  match run (analyze ObjectId repr_summary payload) w with
  | (Return r, log) =>
    exists uid o user pf rest,
      user_id_of payload = JStr uid
      /\ ObjectId uid = Some o
      /\ user_collection w o = Some user
      /\ portfolio_collection w uid = Some pf
      /\ resp_summary r = Summarizer._summarize_portfolio pf
      /\ log = [EvFindUser o; EvFindPortfolio uid] ++ rest
      /\ (posts rest <= 1)%nat
  | (Raise (HTTPException code _), log) =>
    (code = 400%nat /\ log = [])
    \/ (code = 404%nat /\ posts log = 0%nat /\ (List.length log <= 2)%nat)
  | (Raise _, _) => False
  end.
Proof.
  destruct (Json.truthy (user_id_of payload)) eqn:T;
    [| rewrite (analyze_no_user_id w payload T); now left].
  destruct (user_id_of payload) as [| b | q | uid | l | ob] eqn:E;
    try (rewrite (analyze_not_a_string w payload);
         [now left | now rewrite E | rewrite E; discriminate]).
  assert (Ne : uid <> []) by (intros ->; discriminate T).
  destruct (ObjectId uid) as [o |] eqn:Eo;
    [| rewrite (analyze_malformed w payload uid E Ne Eo); now left].
  destruct (user_collection w o) as [user |] eqn:Eu;
    [| rewrite (analyze_user_absent w payload uid o E Ne Eo Eu);
       right; cbn; repeat split; lia].
  destruct (portfolio_collection w uid) as [pf |] eqn:Ep;
    [| rewrite (analyze_portfolio_absent w payload uid o user E Ne Eo Eu Ep);
       right; cbn; repeat split; lia].
  assert (Eid : PyDict.get (lit "user_id") payload = Some (JStr uid)).
  { unfold user_id_of in E.
    destruct (PyDict.get (lit "user_id") payload); [now subst | discriminate]. }
  rewrite (analyze_found oid ObjectId repr_summary w payload uid o user pf
                         Eid Ne Eo Eu Ep).
  pose proof (hf_complete_posts w
                (analyze_prompt repr_summary user
                   (Summarizer._summarize_portfolio pf))
                [EvFindUser o; EvFindPortfolio uid]) as Hp.
  destruct (hf_complete_trace w
              (analyze_prompt repr_summary user
                 (Summarizer._summarize_portfolio pf))
              [EvFindUser o; EvFindPortfolio uid])
    as [v [X | [token [_ [_ X]]]]]; rewrite X in *; cbn [snd] in Hp;
    eexists uid, o, user, pf, _;
    (repeat split; try reflexivity; try assumption; cbn; lia).
Qed.

(** X7. Usable text from the client is passed on as it is: [analyze]
    returns it as the advice beside the summary of the portfolio, [chat]
    returns it as the reply. *)
Theorem completion_is_passed_on w :
  (forall (payload : PyDict.dict json) (uid : str) (o : oid)
          (user : UserDoc) (pf : PortfolioDoc) (ai : json) log',
      PyDict.get (lit "user_id") payload = Some (JStr uid) ->
      uid <> [] ->
      ObjectId uid = Some o ->
      user_collection w o = Some user ->
      portfolio_collection w uid = Some pf ->
      _hf_complete
        (analyze_prompt repr_summary user (Summarizer._summarize_portfolio pf))
        w [EvFindUser o; EvFindPortfolio uid] = (Return ai, log') ->
      Json.truthy ai = true ->
      run (analyze ObjectId repr_summary payload) w =
      (Return {| resp_summary := Summarizer._summarize_portfolio pf;
                 resp_advice := ai |}, log'))
  /\ (forall (msg : ChatMessage) (o : oid) (user : UserDoc) (ai : json) log',
         ObjectId (msg_user_id msg) = Some o ->
         user_collection w o = Some user ->
         _hf_complete
           (chat_prompt repr_summary user
              (Summarizer._summarize_portfolio
                 (portfolio_or_empty w (msg_user_id msg)))
              (msg_message msg))
           w [EvFindUser o; EvFindPortfolio (msg_user_id msg)] = (Return ai, log') ->
         Json.truthy ai = true ->
         run (chat ObjectId repr_summary msg) w = (Return {| reply := ai |}, log')).
Proof.
  split.
  - intros payload uid o user pf ai log' Eid Ne Eo Eu Ep Eai Hai.
    rewrite (analyze_found oid ObjectId repr_summary w payload uid o user pf
                           Eid Ne Eo Eu Ep), Eai.
    unfold Json.or_else. now rewrite Hai.
  - intros msg o user ai log' Eo Eu Eai Hai.
    rewrite (chat_found oid ObjectId repr_summary w msg o user Eo Eu), Eai, Hai.
    reflexivity.
Qed.

(* ------------------------------------------------------------------ *)
(** ** [chat] *)
(* ------------------------------------------------------------------ *)

Lemma chat_malformed w (msg : ChatMessage) :
  ObjectId (msg_user_id msg) = None ->
  run (chat ObjectId repr_summary msg) w
  = (Raise (HTTPException 400 (lit "invalid user_id")), []).
Proof.
  intros Eo. cbv beta iota zeta delta [run chat]. now rewrite Eo.
Qed.

(** X8. Every run of [chat] ends in one of three ways: a reply, which is
    never empty, after both lookups and at most one posted request; a 400
    with an empty log, exactly when the identifier is malformed; or an
    [AttributeError] after both lookups, exactly when the identifier is well
    formed and no user has it.  An absent portfolio alone is no error, and
    [chat] never answers 404. *)
Theorem chat_outcomes w (msg : ChatMessage) :
  match run (chat ObjectId repr_summary msg) w with
  | (Return r, log) =>
    exists o user rest,
      ObjectId (msg_user_id msg) = Some o
      /\ user_collection w o = Some user
      /\ Json.truthy (reply r) = true
      /\ log = [EvFindUser o; EvFindPortfolio (msg_user_id msg)] ++ rest
      /\ (posts rest <= 1)%nat
  | (Raise (HTTPException code _), log) =>
    code = 400%nat /\ ObjectId (msg_user_id msg) = None /\ log = []
  | (Raise AttributeError, log) =>
    exists o,
      ObjectId (msg_user_id msg) = Some o
      /\ user_collection w o = None
      /\ log = [EvFindUser o; EvFindPortfolio (msg_user_id msg)]
  | (Raise _, _) => False
  end.
Proof.
  destruct (ObjectId (msg_user_id msg)) as [o |] eqn:Eo;
    [| rewrite (chat_malformed w msg Eo); auto].
  destruct (user_collection w o) as [user |] eqn:Eu;
    [| rewrite (chat_user_absent oid ObjectId repr_summary w msg o Eo Eu);
       now exists o].
  rewrite (chat_found oid ObjectId repr_summary w msg o user Eo Eu).
  set (prompt := chat_prompt repr_summary user _ _).
  pose proof (hf_complete_posts w prompt
                [EvFindUser o; EvFindPortfolio (msg_user_id msg)]) as Hp.
  destruct (hf_complete_trace w prompt
              [EvFindUser o; EvFindPortfolio (msg_user_id msg)])
    as [v [X | [token [_ [_ X]]]]]; rewrite X in *; cbn [snd] in Hp;
    eexists o, user, _;
    (repeat split;
     first [ assumption
           | cbn [reply]; destruct (Json.truthy v) eqn:T; [exact T | reflexivity]
           | reflexivity
           | cbn; lia ]).
Qed.

End ServiceProperties.
